(** * Exile: the process NIF ([c_src/exile.c]) as a shallow embedding

    The NIF entry points of [exile.c] that work on an existing handle
    ([sys_write], [sys_read], [sys_close], [is_alive], [sys_terminate],
    [sys_kill], [sys_wait], [os_pid]) are translated to functions in a
    small reader/state monad.  The state holds the [ExecContext] the handle
    points to, the C global [errno], the pending-exception flag of the NIF
    environment and the list of calls made to the host (the kernel and the
    BEAM runtime).  What the host answers is a parameter: an arbitrary
    function of the calls made so far and the call being made. *)

From Stdlib Require Import ZArith List String Bool Lia.
From Stdlib Require Import Strings.Byte.
Import ListNotations.
Local Open Scope Z_scope.

(** ** C integer types (LP64) *)

Definition INT_MIN : Z := - 2 ^ 31.
Definition INT_MAX : Z := 2 ^ 31 - 1.

(** Conversion of an integer value to [int] (two's complement wrap-around). *)
Definition to_int (z : Z) : Z := (z + 2 ^ 31) mod 2 ^ 32 - 2 ^ 31.

(** Conversion of an integer value to [size_t] (64 bits, unsigned). *)
Definition to_size_t (z : Z) : Z := z mod 2 ^ 64.

(** Conversion of an integer value to [signed char]. *)
Definition to_schar (z : Z) : Z := (z + 2 ^ 7) mod 2 ^ 8 - 2 ^ 7.

(** ** Constants of [exile.c] (lines 53-58) *)

Definition PIPE_CLOSED : Z := -1.
Definition CMD_EXIT : Z := -1.
Definition UNBUFFERED_READ : Z := -1.
Definition PIPE_BUF_SIZE : Z := 65535.

(** [enum exit_type { NORMAL_EXIT, SIGNALED, STOPPED }].  The field of
    [ExecContext] that holds it is never initialised by [execute], so it is
    kept as the integer the C enum is. *)
Definition NORMAL_EXIT : Z := 0.
Definition SIGNALED : Z := 1.
Definition STOPPED : Z := 2.

(** ** What the system headers provide

    Error numbers, signal numbers and the wait-status macros come from the
    platform's headers, not from [exile.c]; the embedding takes them as a
    parameter. *)

Class Posix : Type := {
  EAGAIN : Z;
  EWOULDBLOCK : Z;
  SIGTERM : Z;
  SIGKILL : Z;
  WNOHANG : Z;
  WIFEXITED : Z -> bool;
  WEXITSTATUS : Z -> Z;
  WIFSIGNALED : Z -> bool;
  WTERMSIG : Z -> Z;
  WIFSTOPPED : Z -> bool
}.

(** The values of Linux with glibc ([bits/waitstatus.h]). *)
#[export] Instance linux_glibc : Posix := {|
  EAGAIN := 11;
  EWOULDBLOCK := 11;
  SIGTERM := 15;
  SIGKILL := 9;
  WNOHANG := 1;
  WIFEXITED := fun status => Z.land status 127 =? 0;
  WEXITSTATUS := fun status => Z.shiftr (Z.land status 65280) 8;
  WIFSIGNALED := fun status =>
    0 <? Z.shiftr (to_schar (Z.land status 127 + 1)) 1;
  WTERMSIG := fun status => Z.land status 127;
  WIFSTOPPED := fun status => Z.land status 255 =? 127
|}.

(** ** Erlang terms the NIF builds *)

Inductive ERL_NIF_TERM : Type :=
| enif_make_atom (name : string)
| enif_make_int (i : Z)
| enif_make_tuple2 (e1 e2 : ERL_NIF_TERM)
| enif_make_binary (data : list byte)
| THE_NON_VALUE.

Arguments enif_make_atom name%_string.

(** The atoms [on_load] creates (lines 740-751). *)
Definition ATOM_TRUE : ERL_NIF_TERM := enif_make_atom "true".
Definition ATOM_FALSE : ERL_NIF_TERM := enif_make_atom "false".
Definition ATOM_OK : ERL_NIF_TERM := enif_make_atom "ok".
Definition ATOM_ERROR : ERL_NIF_TERM := enif_make_atom "error".
Definition ATOM_UNDEFINED : ERL_NIF_TERM := enif_make_atom "undefined".
Definition ATOM_INVALID_CTX : ERL_NIF_TERM :=
  enif_make_atom "invalid_exile_exec_ctx".
Definition ATOM_PIPE_CLOSED : ERL_NIF_TERM := enif_make_atom "closed_pipe".
Definition ATOM_EXIT : ERL_NIF_TERM := enif_make_atom "exit".
Definition ATOM_SIGNALED : ERL_NIF_TERM := enif_make_atom "signaled".
Definition ATOM_STOPPED : ERL_NIF_TERM := enif_make_atom "stopped".
Definition ATOM_EAGAIN : ERL_NIF_TERM := enif_make_atom "eagain".

Definition make_ok (term : ERL_NIF_TERM) : ERL_NIF_TERM :=
  enif_make_tuple2 ATOM_OK term.

Definition make_error (term : ERL_NIF_TERM) : ERL_NIF_TERM :=
  enif_make_tuple2 ATOM_ERROR term.

(** [enif_inspect_binary]: the bytes of a binary term, failure otherwise. *)
Definition enif_inspect_binary (term : ERL_NIF_TERM) : option (list byte) :=
  match term with
  | enif_make_binary data => Some data
  | _ => None
  end.

(** [bin.size] *)
Definition size (bin : list byte) : Z := Z.of_nat (List.length bin).

(** ** The handle *)

(** [struct ExecContext] (lines 95-104).  The two resource objects are
    pointers; only their identity matters. *)
Record ExecContext : Type := mkExecContext {
  cmd_input_fd : Z;
  cmd_output_fd : Z;
  exit_status : Z;
  exit_type : Z;
  pid : Z;
  read_resource : Z;
  write_resource : Z
}.

Definition set_cmd_input_fd (fd : Z) (c : ExecContext) : ExecContext :=
  mkExecContext fd (cmd_output_fd c) (exit_status c) (exit_type c) (pid c)
                (read_resource c) (write_resource c).

Definition set_cmd_output_fd (fd : Z) (c : ExecContext) : ExecContext :=
  mkExecContext (cmd_input_fd c) fd (exit_status c) (exit_type c) (pid c)
                (read_resource c) (write_resource c).

Definition set_pid (p : Z) (c : ExecContext) : ExecContext :=
  mkExecContext (cmd_input_fd c) (cmd_output_fd c) (exit_status c)
                (exit_type c) p (read_resource c) (write_resource c).

Definition set_exit (ty st : Z) (c : ExecContext) : ExecContext :=
  mkExecContext (cmd_input_fd c) (cmd_output_fd c) st ty (pid c)
                (read_resource c) (write_resource c).

(** ** The host: system calls and [enif_select] *)

Inductive ErlNifSelectFlags : Type :=
| ERL_NIF_SELECT_READ
| ERL_NIF_SELECT_WRITE
| ERL_NIF_SELECT_STOP.

(** A call the NIF makes to the kernel or to the runtime, with its
    arguments.  [call_read fd len count] is [read(fd, buf, count)] on the
    variable-length array [buf] declared with [len] elements.
    [call_perror s errnum] is [perror(s)] called while [errno] is
    [errnum]: it prints on standard error, and what it leaves in [errno]
    (it may fail itself, as when standard error is closed) is the host's
    to say. *)
Inductive Call : Type :=
| call_write (fd : Z) (buf : list byte) (count : Z)
| call_read (fd : Z) (len : Z) (count : Z)
| call_close (fd : Z)
| call_kill (p : Z) (sig : Z)
| call_waitpid (p : Z) (options : Z)
| call_enif_select (fd : Z) (mode : ErlNifSelectFlags) (obj : Z)
| call_perror (s : string) (errnum : Z).

Arguments call_perror s%_string errnum.

(** What a call leaves behind: its return value, the value of [errno]
    after it, and what it stored through its pointer argument ([status] of
    [waitpid], the buffer of [read]). *)
Record Reply : Type := mkReply {
  rv : Z;
  rv_errno : Z;
  rv_status : Z;
  rv_buf : list byte
}.

(** The host answers a call knowing every call made before it. *)
Definition Host : Type := list Call -> Call -> Reply.

Record World : Type := mkWorld {
  ctx : ExecContext;
  errno : Z;
  exception : bool;
  trace : list Call
}.

(** ** The monad of NIF code *)

Definition NIF (A : Type) : Type := Host -> World -> A * World.

Definition ret {A : Type} (a : A) : NIF A := fun _ w => (a, w).

Definition bind {A B : Type} (m : NIF A) (k : A -> NIF B) : NIF B :=
  fun h w => let (a, w') := m h w in k a h w'.

Notation "x <- m ;; k" := (bind m (fun x => k))
  (at level 61, m at next level, right associativity).
Notation "m ;;; k" := (bind m (fun _ => k))
  (at level 61, right associativity).

Definition get_ctx : NIF ExecContext := fun _ w => (ctx w, w).

Definition put_ctx (c : ExecContext) : NIF unit :=
  fun _ w => (tt, mkWorld c (errno w) (exception w) (trace w)).

Definition get_errno : NIF Z := fun _ w => (errno w, w).

(** Making a call: the host's reply sets [errno], the call is logged. *)
Definition invoke (c : Call) : NIF Reply :=
  fun h w =>
    let r := h (trace w) c in
    (r, mkWorld (ctx w) (rv_errno r) (exception w) (trace w ++ [c])).

(** [perror(s)]: the host says what [errno] is afterwards.  The trace
    keeps the calls made on the handle and [perror] is not one of them,
    so it is not added to it. *)
Definition perror (s : string) : NIF unit :=
  fun h w =>
    (tt, mkWorld (ctx w) (rv_errno (h (trace w) (call_perror s (errno w))))
                 (exception w) (trace w)).

(** [enif_make_badarg]: the environment now holds a pending [badarg]
    exception, raised when the NIF returns whatever term it returns. *)
Definition enif_make_badarg : NIF ERL_NIF_TERM :=
  fun _ w => (THE_NON_VALUE, mkWorld (ctx w) (errno w) true (trace w)).

(** What the Erlang caller sees of a NIF call. *)
Inductive Outcome : Type :=
| Returned (term : ERL_NIF_TERM)
| RaisedBadarg.

(** A NIF call starts in a fresh environment (no pending exception). *)
Definition run_nif (f : NIF ERL_NIF_TERM) (h : Host) (w : World)
  : Outcome * World :=
  let (term, w') := f h (mkWorld (ctx w) (errno w) false (trace w)) in
  (if exception w' then RaisedBadarg else Returned term, w').

(** ** The NIFs

    Each function below is the body of the C function of the same name
    after [GET_CTX] has found the [ExecContext] of the handle: every
    property stated here is about a call on a handle.  The arity checks
    ([argc]) are decided by the [nif_funcs] table, and the timing calls
    ([enif_monotonic_time], [notify_consumed_timeslice]) only account
    scheduler time; neither takes part in what a call returns.

    [perror] is part of [sys_close], the one function that reads
    [errno] after it (lines 532-533 and 547-548).  Everywhere else the
    value of [errno] is taken before [perror] or not at all, and the
    next read of [errno] follows a call that sets it, so [perror] is
    left out there.

    [sys_read] and [sys_close] take the value of the C variable that
    [enif_get_int] fills in ([request], [kind]); [sys_read_argv] and
    [sys_close_argv] below are the same calls given the term
    [argv[1]]. *)

(** [select_write] (lines 456-463) *)
Definition select_write : NIF Z :=
  c <- get_ctx ;;
  r <- invoke (call_enif_select (cmd_input_fd c) ERL_NIF_SELECT_WRITE
                                (write_resource c)) ;;
  ret (rv r).

(** [select_read] (lines 557-563) *)
Definition select_read : NIF Z :=
  c <- get_ctx ;;
  r <- invoke (call_enif_select (cmd_output_fd c) ERL_NIF_SELECT_READ
                                (read_resource c)) ;;
  ret (rv r).

(** [sys_write] (lines 465-509); [argv1] is [argv[1]]. *)
Definition sys_write `{Posix} (argv1 : ERL_NIF_TERM) : NIF ERL_NIF_TERM :=
  c <- get_ctx ;;
  if cmd_input_fd c =? PIPE_CLOSED then ret (make_error ATOM_PIPE_CLOSED)
  else
    match enif_inspect_binary argv1 with
    | None => enif_make_badarg
    | Some bin =>
      if size bin =? 0 then enif_make_badarg
      else
        r <- invoke (call_write (cmd_input_fd c) bin (size bin)) ;;
        let result := rv r in
        write_errno <- get_errno ;;
        if result >=? size bin then
          ret (make_ok (enif_make_int (to_int result)))
        else if result >=? 0 then
          retval <- select_write ;;
          if negb (retval =? 0) then ret (make_error (enif_make_int retval))
          else ret (make_ok (enif_make_int (to_int result)))
        else if (write_errno =? EAGAIN) || (write_errno =? EWOULDBLOCK) then
          retval <- select_write ;;
          if negb (retval =? 0) then ret (make_error (enif_make_int retval))
          else ret (make_error ATOM_EAGAIN)
        else ret (make_error (enif_make_int write_errno))
    end.

(** [sys_close] (lines 511-555); [kind] is the value of the C variable
    [kind] at the [switch]. *)
Definition sys_close (kind : Z) : NIF ERL_NIF_TERM :=
  c <- get_ctx ;;
  if kind =? 0 then
    if cmd_input_fd c =? PIPE_CLOSED then ret ATOM_OK
    else
      invoke (call_enif_select (cmd_input_fd c) ERL_NIF_SELECT_STOP
                               (write_resource c)) ;;;
      r <- invoke (call_close (cmd_input_fd c)) ;;
      if rv r =? 0 then
        put_ctx (set_cmd_input_fd PIPE_CLOSED c) ;;;
        ret ATOM_OK
      else
        perror "cmd_input_fd close()" ;;;
        e <- get_errno ;;
        ret (make_error (enif_make_int e))
  else if kind =? 1 then
    if cmd_output_fd c =? PIPE_CLOSED then ret ATOM_OK
    else
      invoke (call_enif_select (cmd_output_fd c) ERL_NIF_SELECT_STOP
                               (read_resource c)) ;;;
      r <- invoke (call_close (cmd_output_fd c)) ;;
      if rv r =? 0 then
        put_ctx (set_cmd_output_fd PIPE_CLOSED c) ;;;
        ret ATOM_OK
      else
        perror "cmd_output_fd close()" ;;;
        e <- get_errno ;;
        ret (make_error (enif_make_int e))
  else enif_make_badarg.

(** [sys_read] (lines 565-627); [request] is the value of the C variable
    [request] after line 581.  The buffer is the variable-length array
    [buf[size]]; the binary returned holds the first [result] bytes of
    it, and [bin_term] stays the zero word ([THE_NON_VALUE]) when [read]
    fails.  C leaves the declaration of [buf] undefined when [size] is
    below 1, which happens only after the [enif_make_badarg] of line
    587; the embedding goes on to the [read] call as the statements are
    written, and records the declared length in the call, so that what
    it says of such a size holds only as far as the compiled declaration
    goes through.  For a size of at least 1 and for [UNBUFFERED_READ]
    the array has between 1 and [PIPE_BUF_SIZE] elements. *)
Definition sys_read `{Posix} (request : Z) : NIF ERL_NIF_TERM :=
  c <- get_ctx ;;
  if cmd_output_fd c =? PIPE_CLOSED then ret (make_error ATOM_PIPE_CLOSED)
  else
    size <- (if request =? UNBUFFERED_READ then ret PIPE_BUF_SIZE
             else if request <? 1 then (enif_make_badarg ;;; ret request)
             else if request >? PIPE_BUF_SIZE then ret PIPE_BUF_SIZE
             else ret request) ;;
    r <- invoke (call_read (cmd_output_fd c) size (to_size_t size)) ;;
    let result := rv r in
    read_errno <- get_errno ;;
    let bin_term :=
      if result >=? 0
      then enif_make_binary (firstn (Z.to_nat result) (rv_buf r))
      else THE_NON_VALUE in
    if result >=? 0 then
      if (result =? request) || (result =? 0) || (request =? UNBUFFERED_READ)
      then ret (make_ok bin_term)
      else
        retval <- select_read ;;
        if negb (retval =? 0) then ret (make_error (enif_make_int retval))
        else ret (make_ok bin_term)
    else
      if (read_errno =? EAGAIN) || (read_errno =? EWOULDBLOCK) then
        retval <- select_read ;;
        if negb (retval =? 0) then ret (make_error (enif_make_int retval))
        else ret (make_error ATOM_EAGAIN)
      else ret (make_error (enif_make_int read_errno)).

(** [is_alive] (lines 629-644) *)
Definition is_alive : NIF ERL_NIF_TERM :=
  c <- get_ctx ;;
  if pid c =? CMD_EXIT then ret (make_ok ATOM_TRUE)
  else
    r <- invoke (call_kill (pid c) 0) ;;
    if rv r =? 0 then ret (make_ok ATOM_TRUE)
    else ret (make_ok ATOM_FALSE).

(** [sys_terminate] (lines 646-654) *)
Definition sys_terminate `{Posix} : NIF ERL_NIF_TERM :=
  c <- get_ctx ;;
  if pid c =? CMD_EXIT then ret (make_ok (enif_make_int 0))
  else
    r <- invoke (call_kill (pid c) SIGTERM) ;;
    ret (make_ok (enif_make_int (rv r))).

(** [sys_kill] (lines 656-664) *)
Definition sys_kill `{Posix} : NIF ERL_NIF_TERM :=
  c <- get_ctx ;;
  if pid c =? CMD_EXIT then ret (make_ok (enif_make_int 0))
  else
    r <- invoke (call_kill (pid c) SIGKILL) ;;
    ret (make_ok (enif_make_int (rv r))).

(** [make_exit_term] (lines 666-682) *)
Definition make_exit_term (c : ExecContext) : ERL_NIF_TERM :=
  if exit_type c =? NORMAL_EXIT then
    make_ok (enif_make_tuple2 ATOM_EXIT (enif_make_int (exit_status c)))
  else if exit_type c =? SIGNALED then
    make_ok (enif_make_tuple2 ATOM_SIGNALED (enif_make_int (exit_status c)))
  else if exit_type c =? STOPPED then
    make_ok (enif_make_tuple2 ATOM_STOPPED (enif_make_int (exit_status c)))
  else make_error ATOM_UNDEFINED.

(** [sys_wait] (lines 684-716) *)
Definition sys_wait `{Posix} : NIF ERL_NIF_TERM :=
  c <- get_ctx ;;
  if pid c =? CMD_EXIT then ret (make_exit_term c)
  else
    r <- invoke (call_waitpid (pid c) WNOHANG) ;;
    let status := rv_status r in
    let wpid := rv r in
    if wpid =? pid c then
      let c1 := set_pid CMD_EXIT c in
      let c2 :=
        if WIFEXITED status then set_exit NORMAL_EXIT (WEXITSTATUS status) c1
        else if WIFSIGNALED status then set_exit SIGNALED (WTERMSIG status) c1
        else if WIFSTOPPED status then set_exit STOPPED 0 c1
        else c1 in
      put_ctx c2 ;;;
      ret (make_exit_term c2)
    else
      ret (make_error (enif_make_tuple2 (enif_make_int wpid)
                                        (enif_make_int status))).

(** [os_pid] (lines 718-726) *)
Definition os_pid : NIF ERL_NIF_TERM :=
  c <- get_ctx ;;
  if pid c =? CMD_EXIT then ret (make_ok (enif_make_int 0))
  else ret (make_ok (enif_make_int (pid c))).

(** [enif_get_int]: the integer of a term that is an integer in the
    range of [int]; failure for any other term, an integer outside that
    range (written [enif_make_int i] as well) included. *)
Definition enif_get_int (term : ERL_NIF_TERM) : option Z :=
  match term with
  | enif_make_int i =>
      if (INT_MIN <=? i) && (i <=? INT_MAX) then Some i else None
  | _ => None
  end.

(** What [enif_get_int(env, term, &var)] leaves in [var] when its result
    is not looked at, as at lines 517 and 581: the integer on success,
    and on failure the value the variable had, which was never set
    ([indeterminate], some [int]). *)
Definition unchecked_get_int (term : ERL_NIF_TERM) (indeterminate : Z) : Z :=
  match enif_get_int term with
  | Some i => i
  | None => to_int indeterminate
  end.

(** [sys_read] given [argv[1]] (line 581: [enif_get_int(env, argv[1],
    &request)], result not checked).  The conversion has no effect on the
    handle or on the host, so it does not matter that the source makes it
    after the test of [cmd_output_fd]. *)
Definition sys_read_argv `{Posix} (argv1 : ERL_NIF_TERM) (indeterminate : Z)
  : NIF ERL_NIF_TERM :=
  sys_read (unchecked_get_int argv1 indeterminate).

(** [sys_close] given [argv[1]] (line 517: [enif_get_int(env, argv[1],
    &kind)], result not checked). *)
Definition sys_close_argv (argv1 : ERL_NIF_TERM) (indeterminate : Z)
  : NIF ERL_NIF_TERM :=
  sys_close (unchecked_get_int argv1 indeterminate).

(** The calls of the [nif_funcs] table (lines 763-773) that take a
    handle, with their remaining argument [argv[1]]; [sys_read] and
    [sys_close] come with what their variable held before
    [enif_get_int]. *)
Inductive nif_call : Type :=
| nif_sys_write (argv1 : ERL_NIF_TERM)
| nif_sys_read (argv1 : ERL_NIF_TERM) (indeterminate : Z)
| nif_sys_close (argv1 : ERL_NIF_TERM) (indeterminate : Z)
| nif_sys_terminate
| nif_sys_wait
| nif_sys_kill
| nif_is_alive
| nif_os_pid.

Definition nif_funcs `{Posix} (call : nif_call) : NIF ERL_NIF_TERM :=
  match call with
  | nif_sys_write argv1 => sys_write argv1
  | nif_sys_read argv1 indeterminate => sys_read_argv argv1 indeterminate
  | nif_sys_close argv1 indeterminate => sys_close_argv argv1 indeterminate
  | nif_sys_terminate => sys_terminate
  | nif_sys_wait => sys_wait
  | nif_sys_kill => sys_kill
  | nif_is_alive => is_alive
  | nif_os_pid => os_pid
  end.

(** The world after a sequence of NIF calls on the handle. *)
Fixpoint run_calls `{Posix} (calls : list nif_call) (h : Host) (w : World)
  : World :=
  match calls with
  | [] => w
  | call :: rest => run_calls rest h (snd (run_nif (nif_funcs call) h w))
  end.

(** The calls that send a signal to a process. *)
Definition sends_signal (c : Call) : bool :=
  match c with
  | call_kill _ _ => true
  | _ => false
  end.

(** ** Scripted hosts

    Concrete hosts for the examples: one reply per kind of call; [perror]
    leaves [errno] as it finds it. *)

Record Script : Type := mkScript {
  on_write : Reply;
  on_read : Reply;
  on_close : Reply;
  on_kill : Reply;
  on_waitpid : Reply;
  on_select : Reply
}.

Definition scripted (s : Script) : Host :=
  fun _ c =>
    match c with
    | call_write _ _ _ => on_write s
    | call_read _ _ _ => on_read s
    | call_close _ => on_close s
    | call_kill _ _ => on_kill s
    | call_waitpid _ _ => on_waitpid s
    | call_enif_select _ _ _ => on_select s
    | call_perror _ errnum => mkReply 0 errnum 0 []
    end.

(** A reply that is only a return value and an [errno]. *)
Definition answer (v e : Z) : Reply := mkReply v e 0 [].

(** A host on which every call succeeds with 0. *)
Definition quiet : Script :=
  mkScript (answer 0 0) (answer 0 0) (answer 0 0) (answer 0 0) (answer 0 0)
           (answer 0 0).

(** A freshly launched handle: child 4242, pipes on descriptors 7 and 8. *)
Definition fresh_ctx : ExecContext := mkExecContext 7 8 0 0 4242 100 101.

Definition fresh_world : World := mkWorld fresh_ctx 0 false [].

(** The same handle with both directions closed. *)
Definition closed_world : World :=
  mkWorld (set_cmd_input_fd PIPE_CLOSED (set_cmd_output_fd PIPE_CLOSED fresh_ctx))
          0 false [].

(** The same handle after its child was reaped with exit code 7. *)
Definition reaped_world : World :=
  mkWorld (set_exit NORMAL_EXIT 7 (set_pid CMD_EXIT fresh_ctx)) 0 false [].

(** A host whose [close] fails with [EIO] (5). *)
Definition close_fails : Script :=
  mkScript (answer 0 0) (answer 0 0) (answer (-1) 5) (answer 0 0)
           (answer 0 0) (answer 0 0).

(** A host whose [waitpid] reports that child 4242 exited with code 7. *)
Definition child_exited_7 : Script :=
  mkScript (answer 0 0) (answer 0 0) (answer 0 0) (answer 0 0)
           (mkReply 4242 0 1792 []) (answer 0 0).

(** A host on which [read] and [write] would block ([EAGAIN] is 11). *)
Definition would_block : Script :=
  mkScript (answer (-1) 11) (answer (-1) 11) (answer 0 0) (answer 0 0)
           (answer 0 0) (answer 0 0).

(** A host that accepts 3 bytes of a write and refuses every readiness
    registration: [enif_select] returns
    [INT_MIN | ERL_NIF_SELECT_FAILED]. *)
Definition select_refused_after_3 : Script :=
  mkScript (answer 3 0) (answer 0 0) (answer 0 0) (answer 0 0) (answer 0 0)
           (answer (-2147483640) 0).

(** A host on which [write] would block and [enif_select] fails. *)
Definition would_block_select_refused : Script :=
  mkScript (answer (-1) 11) (answer (-1) 11) (answer 0 0) (answer 0 0)
           (answer 0 0) (answer (-2147483640) 0).

(** A host that accepts 3 bytes of a write, and one that accepts 5. *)
Definition accepts_3 : Script :=
  mkScript (answer 3 0) (answer 0 0) (answer 0 0) (answer 0 0) (answer 0 0)
           (answer 0 0).

Definition accepts_5 : Script :=
  mkScript (answer 5 0) (answer 0 0) (answer 0 0) (answer 0 0) (answer 0 0)
           (answer 0 0).

(** A host whose [read] delivers the two bytes [he]. *)
Definition delivers_2 : Script :=
  mkScript (answer 0 0) (mkReply 2 0 0 [x68; x65]) (answer 0 0) (answer 0 0)
           (answer 0 0) (answer 0 0).

(** A host whose [write] and [read] fail with [EPIPE] (32). *)
Definition broken_pipe : Script :=
  mkScript (answer (-1) 32) (answer (-1) 32) (answer 0 0) (answer 0 0)
           (answer 0 0) (answer 0 0).

(** The host [close_fails] with standard error closed: [perror] fails in
    its turn and leaves [EBADF] (9) in [errno]. *)
Definition close_fails_stderr_closed : Host :=
  fun past c =>
    match c with
    | call_perror _ _ => mkReply 0 9 0 []
    | _ => scripted close_fails past c
    end.

(** The payload of the examples. *)
Definition hello : list byte := [x68; x65; x6c; x6c; x6f].

(** ** Reading a trace *)

(** The descriptor or the process id a call is made on ([perror] prints
    on descriptor 2). *)
Definition call_target (c : Call) : Z :=
  match c with
  | call_write fd _ _ => fd
  | call_read fd _ _ => fd
  | call_close fd => fd
  | call_kill p _ => p
  | call_waitpid p _ => p
  | call_enif_select fd _ _ => fd
  | call_perror _ _ => 2
  end.

(** The calls that go to the kernel ([enif_select] goes to the runtime). *)
Definition is_syscall (c : Call) : bool :=
  match c with
  | call_enif_select _ _ _ => false
  | _ => true
  end.

(** ** Scheduler accounting *)

(** [notify_consumed_timeslice] (lines 250-260): the percentage handed to
    [enif_consume_timeslice] for a call that ran from [start] to [stop]
    (microseconds, [ErlNifTime] is a signed 64-bit integer; the
    subtraction is taken not to overflow).  C division truncates towards
    zero; the percentage is passed as an [int]. *)
Definition notify_consumed_timeslice (start stop : Z) : Z :=
  let pct := Z.quot (stop - start) 10 in
  let pct := if pct >? 100 then 100
             else if pct =? 0 then 1
             else pct in
  to_int pct.

(** More hosts for the examples. *)

(** A host whose [kill] fails ([ESRCH] is 3). *)
Definition kill_fails : Script :=
  mkScript (answer 0 0) (answer 0 0) (answer 0 0) (answer (-1) 3)
           (answer 0 0) (answer 0 0).

(** A host whose [waitpid] reports that child 4242 was killed by signal 9. *)
Definition child_killed_9 : Script :=
  mkScript (answer 0 0) (answer 0 0) (answer 0 0) (answer 0 0)
           (mkReply 4242 0 9 []) (answer 0 0).

(** A host whose [write] accepts nothing. *)
Definition accepts_0 : Script :=
  mkScript (answer 0 0) (answer 0 0) (answer 0 0) (answer 0 0) (answer 0 0)
           (answer 0 0).

(** ** Launching the child: [start_process]

    [start_process] runs in the calling process up to [fork] and, where
    [fork] returns 0, goes on in the child, which never returns from it:
    the child ends in [execve] or in [_exit].  Its calls to the kernel are
    logged like those of the NIFs, in a trace of their own. *)

Definition PIPE_READ : Z := 0.
Definition PIPE_WRITE : Z := 1.
Definition FORK_EXEC_FAILURE : Z := 125.

(** [unistd.h] *)
Definition STDIN_FILENO : Z := 0.
Definition STDOUT_FILENO : Z := 1.
Definition STDERR_FILENO : Z := 2.

(** The file status flags of [fcntl.h], a parameter like [Posix]. *)
Class Fcntl : Type := {
  O_CLOEXEC : Z;
  O_NONBLOCK : Z;
  O_WRONLY : Z
}.

(** The values of Linux. *)
#[export] Instance linux_fcntl : Fcntl := {|
  O_CLOEXEC := 524288;
  O_NONBLOCK := 2048;
  O_WRONLY := 1
|}.

(** The system calls of [start_process].  [ksys_pipe i] is
    [pipe(pipes[i])]; [ksys_getfl fd] is [fcntl(fd, F_GETFL)] and
    [ksys_setfl fd arg] is [fcntl(fd, F_SETFL, arg)]; [ksys_open_max] is
    [sysconf(_SC_OPEN_MAX)]; [ksys_execve path argv envp] has [None] for
    a null [path]. *)
Inductive KernelCall : Type :=
| ksys_pipe (i : Z)
| ksys_getfl (fd : Z)
| ksys_setfl (fd : Z) (arg : Z)
| ksys_fork
| ksys_chdir (dir : string)
| ksys_close (fd : Z)
| ksys_dup2 (oldfd newfd : Z)
| ksys_open (path : string) (flags : Z)
| ksys_open_max
| ksys_execve (path : option string) (argv envp : list string).

(** What the kernel leaves behind: the return value, [errno] after the
    call and, for [pipe], the two elements of the array after the call.
    An [execve] that succeeds does not return; the kernel says so by any
    value other than -1. *)
Record KernelReply : Type := mkKernelReply {
  kr_val : Z;
  kr_errno : Z;
  kr_fds : Z * Z
}.

Definition Kernel : Type := list KernelCall -> KernelCall -> KernelReply.

Record ProcState : Type := mkProcState {
  p_errno : Z;
  p_trace : list KernelCall
}.

(** How a piece of code of [start_process] ends: it goes on with a
    value, or the process exits, or the process image is replaced. *)
Inductive Ending (A : Type) : Type :=
| GoesOn (a : A)
| Exits (code : Z)
| Execs (path : option string) (argv envp : list string).

Arguments GoesOn {A} a.
Arguments Exits {A} code.
Arguments Execs {A} path argv envp.

Definition Proc (A : Type) : Type := Kernel -> ProcState -> Ending A * ProcState.

Definition proc_ret {A : Type} (a : A) : Proc A := fun _ s => (GoesOn a, s).

Definition proc_bind {A B : Type} (m : Proc A) (k : A -> Proc B) : Proc B :=
  fun kern s =>
    match m kern s with
    | (GoesOn a, s') => k a kern s'
    | (Exits code, s') => (Exits code, s')
    | (Execs path argv envp, s') => (Execs path argv envp, s')
    end.

Declare Scope proc_scope.
Delimit Scope proc_scope with proc.
Notation "x <- m ;; k" := (proc_bind m (fun x => k))
  (at level 61, m at next level, right associativity) : proc_scope.
Notation "m ;;; k" := (proc_bind m (fun _ => k))
  (at level 61, right associativity) : proc_scope.

Definition proc_errno : Proc Z := fun _ s => (GoesOn (p_errno s), s).

Definition ksys (c : KernelCall) : Proc KernelReply :=
  fun kern s =>
    let r := kern (p_trace s) c in
    (GoesOn r, mkProcState (kr_errno r) (p_trace s ++ [c])).

(** [_exit(code)] *)
Definition _exit {A : Type} (code : Z) : Proc A := fun _ s => (Exits code, s).

(** [struct StartProcessResult] (lines 106-110) *)
Record StartProcessResult : Type := mkStartProcessResult {
  success : bool;
  err : Z;
  context : ExecContext
}.

(** The members a designated initialiser leaves out are zero. *)
Definition zero_context : ExecContext := mkExecContext 0 0 0 0 0 0 0.

(** [int pipes[2][2]], and [pipes[i][j]]. *)
Definition Pipes : Type := (Z * Z) * (Z * Z).

Definition pipes_at (pipes : Pipes) (i j : Z) : Z :=
  let row := if i =? STDIN_FILENO then fst pipes else snd pipes in
  if j =? PIPE_READ then fst row else snd row.

Section Launcher.
Context `{Fcntl}.
Local Open Scope proc_scope.

(** [set_flag] (lines 236-238): the inner [fcntl] is an argument of the
    outer one, so it runs first. *)
Definition set_flag (fd flags : Z) : Proc Z :=
  old <- ksys (ksys_getfl fd) ;;
  r <- ksys (ksys_setfl fd (Z.lor (kr_val old) flags)) ;;
  proc_ret (kr_val r).

(** One [if (pipes[i][j] > 0) close(pipes[i][j]);] of [close_all]. *)
Definition close_if_positive (fd : Z) : Proc unit :=
  if fd >? 0 then ksys (ksys_close fd) ;;; proc_ret tt else proc_ret tt.

(** [close_all] (lines 240-247), the loop over [i] = 0, 1 written out. *)
Definition close_all (pipes : Pipes) : Proc unit :=
  close_if_positive (pipes_at pipes 0 PIPE_READ) ;;;
  close_if_positive (pipes_at pipes 0 PIPE_WRITE) ;;;
  close_if_positive (pipes_at pipes 1 PIPE_READ) ;;;
  close_if_positive (pipes_at pipes 1 PIPE_WRITE).

(** The loop [for (i = first; ...; i++) close(i);] run [n] times. *)
Fixpoint close_from (n : nat) (first : Z) : Proc unit :=
  match n with
  | O => proc_ret tt
  | S n' => ksys (ksys_close first) ;;; close_from n' (first + 1)
  end.

(** [close_all_fds] (lines 263-267): the loop runs while
    [i < fd_limit], that is [fd_limit - 3] times when that is positive. *)
Definition close_all_fds : Proc unit :=
  limit <- ksys ksys_open_max ;;
  let fd_limit := to_int (kr_val limit) in
  close_from (Z.to_nat (fd_limit - (STDERR_FILENO + 1))) (STDERR_FILENO + 1).

(** The error exit of [start_process], written three times in the source
    (lines 276-279, 291-294, 300-303): [result.err = errno], then
    [close_all], then [return result]. *)
Definition setup_failed (pipes : Pipes) : Proc StartProcessResult :=
  e <- proc_errno ;;
  close_all pipes ;;;
  proc_ret (mkStartProcessResult false e zero_context).

(** The [case 0] of the [switch] on [fork] (lines 305-354): the child. *)
Definition child_side (args : list string) (stderr_to_console : bool)
    (dir : string) (exec_env : list string) (r_cmdin w_cmdout : Z)
  : Proc StartProcessResult :=
  (if negb (dir =? "")%string then
     c <- ksys (ksys_chdir dir) ;;
     if negb (kr_val c =? 0) then _exit FORK_EXEC_FAILURE else proc_ret tt
   else proc_ret tt) ;;;
  ksys (ksys_close STDIN_FILENO) ;;;
  ksys (ksys_close STDOUT_FILENO) ;;;
  d0 <- ksys (ksys_dup2 r_cmdin STDIN_FILENO) ;;
  if kr_val d0 <? 0 then _exit FORK_EXEC_FAILURE
  else
    d1 <- ksys (ksys_dup2 w_cmdout STDOUT_FILENO) ;;
    if kr_val d1 <? 0 then _exit FORK_EXEC_FAILURE
    else
      (if negb stderr_to_console then
         ksys (ksys_close STDERR_FILENO) ;;;
         o <- ksys (ksys_open "/dev/null" O_WRONLY) ;;
         let dev_null := kr_val o in
         if dev_null =? -1 then _exit FORK_EXEC_FAILURE
         else
           d2 <- ksys (ksys_dup2 dev_null STDERR_FILENO) ;;
           if kr_val d2 <? 0 then _exit FORK_EXEC_FAILURE
           else ksys (ksys_close dev_null) ;;; proc_ret tt
       else proc_ret tt) ;;;
      close_all_fds ;;;
      e <- ksys (ksys_execve (hd_error args) args exec_env) ;;
      if kr_val e =? -1 then _exit FORK_EXEC_FAILURE
      else fun _ s => (Execs (hd_error args) args exec_env, s).

(** [start_process] (lines 269-368) *)
Definition start_process (args : list string) (stderr_to_console : bool)
    (dir : string) (exec_env : list string) : Proc StartProcessResult :=
  p0 <- ksys (ksys_pipe STDIN_FILENO) ;;
  if kr_val p0 =? -1 then setup_failed (kr_fds p0, (0, 0))
  else
    p1 <- ksys (ksys_pipe STDOUT_FILENO) ;;
    let pipes : Pipes := (kr_fds p0, kr_fds p1) in
    if kr_val p1 =? -1 then setup_failed pipes
    else
      let r_cmdin := pipes_at pipes STDIN_FILENO PIPE_READ in
      let w_cmdin := pipes_at pipes STDIN_FILENO PIPE_WRITE in
      let r_cmdout := pipes_at pipes STDOUT_FILENO PIPE_READ in
      let w_cmdout := pipes_at pipes STDOUT_FILENO PIPE_WRITE in
      f0 <- set_flag r_cmdin O_CLOEXEC ;;
      if f0 <? 0 then setup_failed pipes
      else
        f1 <- set_flag w_cmdout O_CLOEXEC ;;
        if f1 <? 0 then setup_failed pipes
        else
          f2 <- set_flag w_cmdin (Z.lor O_CLOEXEC O_NONBLOCK) ;;
          if f2 <? 0 then setup_failed pipes
          else
            f3 <- set_flag r_cmdout (Z.lor O_CLOEXEC O_NONBLOCK) ;;
            if f3 <? 0 then setup_failed pipes
            else
              child <- ksys ksys_fork ;;
              let pid := kr_val child in
              if pid =? -1 then setup_failed pipes
              else if pid =? 0 then
                child_side args stderr_to_console dir exec_env r_cmdin w_cmdout
              else
                ksys (ksys_close r_cmdin) ;;;
                ksys (ksys_close w_cmdout) ;;;
                proc_ret (mkStartProcessResult
                            true 0
                            (set_cmd_output_fd r_cmdout
                               (set_cmd_input_fd w_cmdin
                                  (set_pid pid zero_context)))).

End Launcher.

(** The descriptors [close_all] looks at, in the order it does. *)
Definition pipe_fds (pipes : Pipes) : list Z :=
  [pipes_at pipes 0 PIPE_READ; pipes_at pipes 0 PIPE_WRITE;
   pipes_at pipes 1 PIPE_READ; pipes_at pipes 1 PIPE_WRITE].

(** The integers [first], [first + 1], ... ([n] of them). *)
Fixpoint count_up (n : nat) (first : Z) : list Z :=
  match n with
  | O => []
  | S n' => first :: count_up n' (first + 1)
  end.

(** The calls [start_process] makes before [fork] when nothing fails:
    the two pipes, then [F_GETFL] and [F_SETFL] on each of the four ends,
    where [g0] ... [g3] are the flags [F_GETFL] reported. *)
Definition setup_calls `{Fcntl}
    (r_cmdin w_cmdin r_cmdout w_cmdout g0 g1 g2 g3 : Z) : list KernelCall :=
  [ksys_pipe STDIN_FILENO; ksys_pipe STDOUT_FILENO;
   ksys_getfl r_cmdin; ksys_setfl r_cmdin (Z.lor g0 O_CLOEXEC);
   ksys_getfl w_cmdout; ksys_setfl w_cmdout (Z.lor g1 O_CLOEXEC);
   ksys_getfl w_cmdin;
   ksys_setfl w_cmdin (Z.lor g2 (Z.lor O_CLOEXEC O_NONBLOCK));
   ksys_getfl r_cmdout;
   ksys_setfl r_cmdout (Z.lor g3 (Z.lor O_CLOEXEC O_NONBLOCK))].

(** The flags the kernel reports to the four [F_GETFL] of that
    sequence, when [past] are the calls made before [start_process]:
    each is the reply to the [fcntl] at the point where it is made. *)
Definition getfl_replies `{Fcntl} (kern : Kernel) (past : list KernelCall)
    (r_cmdin w_cmdin r_cmdout w_cmdout : Z) : Z * Z * Z * Z :=
  let t0 := past ++ [ksys_pipe STDIN_FILENO; ksys_pipe STDOUT_FILENO] in
  let g0 := kr_val (kern t0 (ksys_getfl r_cmdin)) in
  let t1 := t0 ++ [ksys_getfl r_cmdin;
                   ksys_setfl r_cmdin (Z.lor g0 O_CLOEXEC)] in
  let g1 := kr_val (kern t1 (ksys_getfl w_cmdout)) in
  let t2 := t1 ++ [ksys_getfl w_cmdout;
                   ksys_setfl w_cmdout (Z.lor g1 O_CLOEXEC)] in
  let g2 := kr_val (kern t2 (ksys_getfl w_cmdin)) in
  let t3 := t2 ++ [ksys_getfl w_cmdin;
                   ksys_setfl w_cmdin (Z.lor g2 (Z.lor O_CLOEXEC O_NONBLOCK))] in
  let g3 := kr_val (kern t3 (ksys_getfl r_cmdout)) in
  (g0, g1, g2, g3).

(** The first calls of the child: [chdir] if there is a directory, then
    the two pipe ends put in place of standard input and output. *)
Definition wiring_head (dir : string) (r_cmdin w_cmdout : Z)
  : list KernelCall :=
  (if (dir =? "")%string then [] else [ksys_chdir dir])
  ++ [ksys_close STDIN_FILENO; ksys_close STDOUT_FILENO;
      ksys_dup2 r_cmdin STDIN_FILENO; ksys_dup2 w_cmdout STDOUT_FILENO].

(** The calls that send standard error to [/dev/null], where [dev_null]
    is the descriptor [open] returned. *)
Definition stderr_calls `{Fcntl} (stderr_to_console : bool) (dev_null : Z)
  : list KernelCall :=
  if stderr_to_console then []
  else [ksys_close STDERR_FILENO; ksys_open "/dev/null" O_WRONLY;
        ksys_dup2 dev_null STDERR_FILENO; ksys_close dev_null].

(** The calls of a child that gets as far as a successful [execve]:
    [dev_null] is the descriptor [open] returned, [swept] the descriptors
    [close_all_fds] closed. *)
Definition wiring_calls `{Fcntl}
    (args : list string) (stderr_to_console : bool) (dir : string)
    (exec_env : list string) (r_cmdin w_cmdout dev_null : Z) (swept : list Z)
  : list KernelCall :=
  wiring_head dir r_cmdin w_cmdout
  ++ stderr_calls stderr_to_console dev_null
  ++ ksys_open_max :: map ksys_close swept
  ++ [ksys_execve (hd_error args) args exec_env].

(** Kinds of kernel calls. *)
Definition is_close (c : KernelCall) : bool :=
  match c with
  | ksys_close _ => true
  | _ => false
  end.

Definition is_fork (c : KernelCall) : bool :=
  match c with
  | ksys_fork => true
  | _ => false
  end.

(** The calls only the child makes. *)
Definition is_child_call (c : KernelCall) : bool :=
  match c with
  | ksys_chdir _ | ksys_dup2 _ _ | ksys_open _ _ | ksys_open_max
  | ksys_execve _ _ _ => true
  | _ => false
  end.

(** Kernels for the examples: every call returns [v]; [pipe] stores the
    pair [fds]. *)
Definition kernel_always (v e : Z) (fds : Z * Z) : Kernel :=
  fun _ _ => mkKernelReply v e fds.

(** A kernel on which everything works: [pipe] stores descriptors 10 and
    11 the first time and 12 and 13 the second, [fork] returns [child]
    (0 in the child, its pid in the parent), [sysconf] returns 16,
    [open] returns 14, the other calls return 0. *)
Definition kernel_ok (child : Z) : Kernel :=
  fun past c =>
    match c with
    | ksys_pipe i => mkKernelReply 0 0 (if i =? 0 then (10, 11) else (12, 13))
    | ksys_fork => mkKernelReply child 0 (0, 0)
    | ksys_open_max => mkKernelReply 16 0 (0, 0)
    | ksys_open _ _ => mkKernelReply 14 0 (0, 0)
    | _ => mkKernelReply 0 0 (0, 0)
    end.

(** The same kernel, on which [fork] fails with [EAGAIN] (11). *)
Definition kernel_fork_fails : Kernel :=
  fun past c =>
    match c with
    | ksys_fork => mkKernelReply (-1) 11 (0, 0)
    | _ => kernel_ok 0 past c
    end.

(** The same kernel, on which [execve] fails with [ENOENT] (2). *)
Definition kernel_exec_fails : Kernel :=
  fun past c =>
    match c with
    | ksys_execve _ _ _ => mkKernelReply (-1) 2 (0, 0)
    | _ => kernel_ok 0 past c
    end.

(** The same kernel, on which [fcntl(fd, F_GETFL)] fails. *)
Definition kernel_getfl_fails : Kernel :=
  fun past c =>
    match c with
    | ksys_getfl _ => mkKernelReply (-1) 9 (0, 0)
    | _ => kernel_ok 0 past c
    end.

Definition proc_start : ProcState := mkProcState 0 [].

(** * Properties *)

(** ** Proof tools *)

(** Unfolds a NIF call down to the host's replies. *)
Ltac nif_unfold :=
  unfold run_nif, sys_read_argv, sys_close_argv, sys_write, sys_read,
    sys_close, sys_wait, sys_terminate, sys_kill, is_alive, os_pid,
    select_write, select_read, bind, ret, get_ctx, put_ctx, get_errno,
    invoke, perror, enif_make_badarg;
  cbn [fst snd ctx errno exception trace].

(** Decides one equality test of the code from a hypothesis. *)
Ltac test_true := rewrite (proj2 (Z.eqb_eq _ _)) by assumption.
Ltac test_false := rewrite (proj2 (Z.eqb_neq _ _)) by assumption.

(** Case analysis on every test a NIF body makes. *)
Ltac split_test :=
  match goal with
  | |- context [match enif_inspect_binary ?t with _ => _ end] =>
      destruct (enif_inspect_binary t)
  | |- context [?a =? ?b] => destruct (Z.eqb_spec a b)
  | |- context [?a >=? ?b] => destruct (Z.geb_spec a b)
  | |- context [?a >? ?b] => destruct (Z.gtb_spec a b)
  | |- context [?a <? ?b] => destruct (Z.ltb_spec a b)
  | |- context [if ?b then _ else _] => destruct b
  end.

Ltac simpl_world :=
  cbn [fst snd ctx errno exception trace pid exit_type exit_status
       cmd_input_fd cmd_output_fd read_resource write_resource
       set_cmd_input_fd set_cmd_output_fd set_pid set_exit negb orb andb].

Ltac branches := repeat (split_test; simpl_world).

(** The same, dropping the cases the hypotheses exclude. *)
Ltac tests :=
  unfold PIPE_CLOSED, CMD_EXIT, UNBUFFERED_READ, PIPE_BUF_SIZE in *;
  repeat (split_test; try lia; simpl_world).

(** ** Conversions that change nothing *)

Lemma to_int_in_range (z : Z) : INT_MIN <= z <= INT_MAX -> to_int z = z.
Proof.
  unfold INT_MIN, INT_MAX, to_int. intros Hz.
  rewrite Z.mod_small by lia. lia.
Qed.

Lemma to_size_t_in_range (z : Z) : 0 <= z < 2 ^ 64 -> to_size_t z = z.
Proof. unfold to_size_t. intros Hz. now rewrite Z.mod_small. Qed.

(** ** The integer argument

    [enif_get_int] succeeds on the integers that fit a C [int], and then
    the call is the function at that integer; in every case the variable
    ends up holding some [int]. *)
Lemma enif_get_int_is_int (term : ERL_NIF_TERM) (i : Z) :
  enif_get_int term = Some i ->
  term = enif_make_int i /\ INT_MIN <= i <= INT_MAX.
Proof.
  destruct term as [name | j | t1 t2 | bytes |]; cbn [enif_get_int];
    try discriminate.
  destruct (Z.leb_spec INT_MIN j), (Z.leb_spec j INT_MAX); cbn [andb];
    try discriminate.
  intros [= ->]. auto.
Qed.

Lemma unchecked_get_int_of_int (term : ERL_NIF_TERM) (i indeterminate : Z) :
  enif_get_int term = Some i -> unchecked_get_int term indeterminate = i.
Proof. unfold unchecked_get_int. now intros ->. Qed.

Lemma unchecked_get_int_is_int (term : ERL_NIF_TERM) (indeterminate : Z) :
  INT_MIN <= unchecked_get_int term indeterminate <= INT_MAX.
Proof.
  unfold unchecked_get_int.
  destruct (enif_get_int term) as [i |] eqn:Hget.
  - exact (proj2 (enif_get_int_is_int term i Hget)).
  - unfold to_int, INT_MIN, INT_MAX.
    pose proof (Z.mod_pos_bound (indeterminate + 2 ^ 31) (2 ^ 32)). lia.
Qed.

(** ** Rejection before any system call *)

(** C6: [sys_write] on a handle whose input direction is closed returns
    [{error, closed_pipe}]; on an open input direction with an empty
    binary it raises [badarg]; in both cases no call reaches the host and
    the handle is unchanged.  [sys_read] on a handle whose output
    direction is closed returns [{error, closed_pipe}], whatever the size
    asked for, without any call to the host. *)
Theorem closed_or_empty_is_rejected_without_syscall `{Posix}
    (h : Host) (w : World) (argv1 : ERL_NIF_TERM) (request : Z) :
  (cmd_input_fd (ctx w) = PIPE_CLOSED ->
     fst (run_nif (sys_write argv1) h w)
     = Returned (make_error ATOM_PIPE_CLOSED)) /\
  (cmd_input_fd (ctx w) <> PIPE_CLOSED -> argv1 = enif_make_binary [] ->
     fst (run_nif (sys_write argv1) h w) = RaisedBadarg) /\
  (cmd_input_fd (ctx w) = PIPE_CLOSED \/ argv1 = enif_make_binary [] ->
     trace (snd (run_nif (sys_write argv1) h w)) = trace w /\
     ctx (snd (run_nif (sys_write argv1) h w)) = ctx w) /\
  (cmd_output_fd (ctx w) = PIPE_CLOSED ->
     fst (run_nif (sys_read request) h w)
     = Returned (make_error ATOM_PIPE_CLOSED) /\
     trace (snd (run_nif (sys_read request) h w)) = trace w /\
     ctx (snd (run_nif (sys_read request) h w)) = ctx w).
Proof.
  split; [| split; [| split]].
  - intros Hclosed. nif_unfold. now test_true.
  - intros Hopen ->. nif_unfold. now test_false.
  - intros [Hclosed | ->]; nif_unfold.
    + now test_true.
    + now destruct (cmd_input_fd (ctx w) =? PIPE_CLOSED).
  - intros Hclosed. nif_unfold. now test_true.
Qed.

(** C6 on the handle with both directions closed, and on the fresh handle
    with an empty payload. *)
Lemma closed_or_empty_is_rejected_example :
  fst (run_nif (sys_write (enif_make_binary hello)) (scripted quiet)
               closed_world)
  = Returned (make_error ATOM_PIPE_CLOSED) /\
  fst (run_nif (sys_write (enif_make_binary [])) (scripted quiet) fresh_world)
  = RaisedBadarg /\
  fst (run_nif (sys_read 10) (scripted quiet) closed_world)
  = Returned (make_error ATOM_PIPE_CLOSED).
Proof.
  assert (Hin : cmd_input_fd (ctx closed_world) = PIPE_CLOSED) by reflexivity.
  assert (Hout : cmd_output_fd (ctx closed_world) = PIPE_CLOSED)
    by reflexivity.
  assert (Hopen : cmd_input_fd (ctx fresh_world) <> PIPE_CLOSED)
    by (unfold PIPE_CLOSED; cbn; lia).
  destruct (closed_or_empty_is_rejected_without_syscall
              (scripted quiet) closed_world (enif_make_binary hello) 10)
    as (Hwrite & _ & _ & Hread).
  destruct (closed_or_empty_is_rejected_without_syscall
              (scripted quiet) fresh_world (enif_make_binary []) 10)
    as (_ & Hempty & _ & _).
  split; [exact (Hwrite Hin) |].
  split; [exact (Hempty Hopen eq_refl) |].
  exact (proj1 (Hread Hout)).
Defined.

(** ** Closing a direction *)

(** C9: whatever [kind] is and whatever the host answers, [sys_close]
    leaves the pid, the exit classification and the two resource objects
    as they were; closing the input leaves [cmd_output_fd] as it was and
    closing the output leaves [cmd_input_fd] as it was.  The only calls it
    makes are [enif_select] with [ERL_NIF_SELECT_STOP] and [close], both on
    the descriptor of the direction being closed: no [kill]. *)
Theorem sys_close_touches_only_its_direction
    (h : Host) (w : World) (kind : Z) :
  let w' := snd (run_nif (sys_close kind) h w) in
  pid (ctx w') = pid (ctx w) /\
  exit_type (ctx w') = exit_type (ctx w) /\
  exit_status (ctx w') = exit_status (ctx w) /\
  read_resource (ctx w') = read_resource (ctx w) /\
  write_resource (ctx w') = write_resource (ctx w) /\
  (kind = 0 \/ cmd_input_fd (ctx w') = cmd_input_fd (ctx w)) /\
  (kind = 1 \/ cmd_output_fd (ctx w') = cmd_output_fd (ctx w)) /\
  exists calls,
    trace w' = trace w ++ calls /\
    existsb sends_signal calls = false /\
    (calls = []
     \/ kind = 0 /\
        calls = [call_enif_select (cmd_input_fd (ctx w)) ERL_NIF_SELECT_STOP
                                  (write_resource (ctx w));
                 call_close (cmd_input_fd (ctx w))]
     \/ kind = 1 /\
        calls = [call_enif_select (cmd_output_fd (ctx w)) ERL_NIF_SELECT_STOP
                                  (read_resource (ctx w));
                 call_close (cmd_output_fd (ctx w))]).
Proof.
  nif_unfold.
  destruct (Z.eqb_spec kind 0) as [-> | Hk0];
    [| destruct (Z.eqb_spec kind 1) as [-> | Hk1]].
  - destruct (cmd_input_fd (ctx w) =? PIPE_CLOSED); cbn.
    + repeat (split; auto). exists []. rewrite app_nil_r. auto.
    + match goal with |- context [rv ?r =? 0] => destruct (rv r =? 0) end;
        cbn; repeat (split; auto);
        (eexists; split;
         [rewrite <- app_assoc; reflexivity | split; [reflexivity | auto]]).
  - destruct (cmd_output_fd (ctx w) =? PIPE_CLOSED); cbn.
    + repeat (split; auto). exists []. rewrite app_nil_r. auto.
    + match goal with |- context [rv ?r =? 0] => destruct (rv r =? 0) end;
        cbn; repeat (split; auto);
        (eexists; split;
         [rewrite <- app_assoc; reflexivity | split; [reflexivity | auto]]).
  - cbn. repeat (split; auto). exists []. rewrite app_nil_r. auto.
Qed.


(** What a close does when its [close] system call does not return 0:
    [perror], then [{error, Errno}] with [errno] as [perror] left it;
    the handle is as it was. *)
Lemma sys_close_failure (h : Host) (w : World) :
  (cmd_input_fd (ctx w) <> PIPE_CLOSED ->
   let stop := call_enif_select (cmd_input_fd (ctx w)) ERL_NIF_SELECT_STOP
                                (write_resource (ctx w)) in
   let closed := h (trace w ++ [stop]) (call_close (cmd_input_fd (ctx w))) in
   let e := rv_errno (h (trace w ++ [stop; call_close (cmd_input_fd (ctx w))])
                        (call_perror "cmd_input_fd close()"
                                     (rv_errno closed))) in
   rv closed <> 0 ->
   run_nif (sys_close 0) h w
   = (Returned (make_error (enif_make_int e)),
      mkWorld (ctx w) e false
              (trace w ++ [stop; call_close (cmd_input_fd (ctx w))]))) /\
  (cmd_output_fd (ctx w) <> PIPE_CLOSED ->
   let stop := call_enif_select (cmd_output_fd (ctx w)) ERL_NIF_SELECT_STOP
                                (read_resource (ctx w)) in
   let closed := h (trace w ++ [stop]) (call_close (cmd_output_fd (ctx w))) in
   let e := rv_errno (h (trace w ++ [stop; call_close (cmd_output_fd (ctx w))])
                        (call_perror "cmd_output_fd close()"
                                     (rv_errno closed))) in
   rv closed <> 0 ->
   run_nif (sys_close 1) h w
   = (Returned (make_error (enif_make_int e)),
      mkWorld (ctx w) e false
              (trace w ++ [stop; call_close (cmd_output_fd (ctx w))]))).
Proof.
  split; intros Hopen stop closed e Hfail; subst stop closed e; nif_unfold;
    cbn [Z.eqb Pos.eqb]; test_false; simpl_world; test_false;
    simpl_world; now rewrite <- app_assoc.
Qed.



(** ** The reaped state is final *)

(** No NIF call changes the pid or the exit classification of a handle
    that is reaped. *)
Lemma nif_call_keeps_reaped `{Posix} (h : Host) (w : World) (call : nif_call) :
  pid (ctx w) = CMD_EXIT ->
  pid (ctx (snd (run_nif (nif_funcs call) h w))) = CMD_EXIT /\
  exit_type (ctx (snd (run_nif (nif_funcs call) h w))) = exit_type (ctx w) /\
  exit_status (ctx (snd (run_nif (nif_funcs call) h w)))
  = exit_status (ctx w).
Proof.
  intros Hreaped.
  destruct call; unfold nif_funcs; nif_unfold;
    try (rewrite Hreaped; cbn [Z.eqb CMD_EXIT Pos.eqb]; cbn; now auto);
    branches; auto.
Qed.

Lemma run_calls_keeps_reaped `{Posix} (h : Host) (calls : list nif_call) :
  forall w : World,
    pid (ctx w) = CMD_EXIT ->
    pid (ctx (run_calls calls h w)) = CMD_EXIT /\
    exit_type (ctx (run_calls calls h w)) = exit_type (ctx w) /\
    exit_status (ctx (run_calls calls h w)) = exit_status (ctx w).
Proof.
  induction calls as [| call rest IH]; intros w Hreaped; cbn [run_calls].
  - auto.
  - destruct (nif_call_keeps_reaped h w call Hreaped) as (Hp & Ht & Hs).
    destruct (IH _ Hp) as (Hp' & Ht' & Hs').
    rewrite Ht', Hs'. auto.
Qed.

(** On a reaped handle the lifecycle calls answer from the handle alone. *)
Lemma lifecycle_calls_on_reaped `{Posix} (h : Host) (w : World) :
  pid (ctx w) = CMD_EXIT ->
  run_nif sys_wait h w
  = (Returned (make_exit_term (ctx w)),
     mkWorld (ctx w) (errno w) false (trace w)) /\
  run_nif sys_terminate h w
  = (Returned (make_ok (enif_make_int 0)),
     mkWorld (ctx w) (errno w) false (trace w)) /\
  run_nif sys_kill h w
  = (Returned (make_ok (enif_make_int 0)),
     mkWorld (ctx w) (errno w) false (trace w)).
Proof.
  intros Hreaped. nif_unfold. rewrite Hreaped. cbn. auto.
Qed.

(** A [waitpid] that returns the child's pid marks the handle reaped, and
    the term returned is the classification now held by the handle. *)
Lemma successful_reap `{Posix} (h : Host) (w : World) :
  rv (h (trace w) (call_waitpid (pid (ctx w)) WNOHANG)) = pid (ctx w) ->
  pid (ctx (snd (run_nif sys_wait h w))) = CMD_EXIT /\
  fst (run_nif sys_wait h w)
  = Returned (make_exit_term (ctx (snd (run_nif sys_wait h w)))).
Proof.
  intros Hwpid. nif_unfold.
  destruct (Z.eqb_spec (pid (ctx w)) CMD_EXIT) as [Hr | Hr]; cbn.
  - auto.
  - rewrite Hwpid, Z.eqb_refl. cbn. split; [| reflexivity].
    branches; reflexivity.
Qed.

(** What the reaping call records on a live handle: the exit code of a
    child that exited, the signal number of a child that was killed. *)
Lemma sys_wait_classifies `{Posix} (h : Host) (w : World) :
  pid (ctx w) <> CMD_EXIT ->
  let r := h (trace w) (call_waitpid (pid (ctx w)) WNOHANG) in
  rv r = pid (ctx w) ->
  (WIFEXITED (rv_status r) = true ->
   fst (run_nif sys_wait h w)
   = Returned (make_ok (enif_make_tuple2
                          ATOM_EXIT
                          (enif_make_int (WEXITSTATUS (rv_status r)))))) /\
  (WIFEXITED (rv_status r) = false -> WIFSIGNALED (rv_status r) = true ->
   fst (run_nif sys_wait h w)
   = Returned (make_ok (enif_make_tuple2
                          ATOM_SIGNALED
                          (enif_make_int (WTERMSIG (rv_status r)))))) /\
  (WIFEXITED (rv_status r) = false -> WIFSIGNALED (rv_status r) = false ->
   WIFSTOPPED (rv_status r) = true ->
   fst (run_nif sys_wait h w)
   = Returned (make_ok (enif_make_tuple2 ATOM_STOPPED (enif_make_int 0)))).
Proof.
  intros Hlive r Hwpid. subst r. nif_unfold. test_false.
  simpl_world. rewrite Hwpid, Z.eqb_refl.
  split; [| split].
  - intros ->. reflexivity.
  - intros -> ->. reflexivity.
  - intros -> -> ->. reflexivity.
Qed.

(** With glibc's macros, status 1792 is an exit with code 7 and status 9
    a death by signal 9. *)
Example glibc_wait_status :
  WIFEXITED 1792 = true /\ WEXITSTATUS 1792 = 7 /\
  WIFEXITED 9 = false /\ WIFSIGNALED 9 = true /\ WTERMSIG 9 = 9 /\
  WIFSIGNALED 127 = false /\ WIFSTOPPED 4991 = true.
Proof. repeat split. Qed.

(** C3: after a [sys_wait] whose [waitpid] returned the child's pid, the
    handle's pid is [CMD_EXIT] and remains so through any sequence of NIF
    calls, whatever the host answers.  After any such sequence, [sys_wait]
    returns the very term the reaping call returned and makes no call to
    the host, and [sys_terminate] and [sys_kill] return [{ok, 0}] and make
    no call to the host either. *)
Theorem reaped_handle_stays_reaped `{Posix}
    (h : Host) (w : World) (calls : list nif_call) :
  rv (h (trace w) (call_waitpid (pid (ctx w)) WNOHANG)) = pid (ctx w) ->
  let reaped := snd (run_nif sys_wait h w) in
  let later := run_calls calls h reaped in
  pid (ctx reaped) = CMD_EXIT /\
  pid (ctx later) = CMD_EXIT /\
  fst (run_nif sys_wait h later) = fst (run_nif sys_wait h w) /\
  trace (snd (run_nif sys_wait h later)) = trace later /\
  ctx (snd (run_nif sys_wait h later)) = ctx later /\
  fst (run_nif sys_terminate h later) = Returned (make_ok (enif_make_int 0)) /\
  trace (snd (run_nif sys_terminate h later)) = trace later /\
  fst (run_nif sys_kill h later) = Returned (make_ok (enif_make_int 0)) /\
  trace (snd (run_nif sys_kill h later)) = trace later.
Proof.
  intros Hwpid reaped later.
  destruct (successful_reap h w Hwpid) as [Hpid Hterm].
  fold reaped in Hpid, Hterm.
  destruct (run_calls_keeps_reaped h calls reaped Hpid) as (Hp & Ht & Hs).
  fold later in Hp, Ht, Hs.
  destruct (lifecycle_calls_on_reaped h later Hp) as (Hw & Hterminate & Hkill).
  rewrite Hw, Hterminate, Hkill, Hterm. cbn [fst snd trace ctx].
  repeat split; auto.
  unfold make_exit_term. now rewrite Ht, Hs.
Qed.

(** C3 on the fresh handle, with a host whose [waitpid] reports the exit
    of the child with code 7: the reaping call returns [{ok, {exit, 7}}],
    and after a kill, a close and a liveness query, so does the next
    [sys_wait]. *)
Lemma reaped_handle_stays_reaped_example :
  fst (run_nif sys_wait (scripted child_exited_7) fresh_world)
  = Returned (make_ok (enif_make_tuple2 ATOM_EXIT (enif_make_int 7))) /\
  fst (run_nif sys_wait (scripted child_exited_7)
         (run_calls [nif_sys_kill; nif_sys_close (enif_make_int 0) 0; nif_is_alive]
            (scripted child_exited_7)
            (snd (run_nif sys_wait (scripted child_exited_7) fresh_world))))
  = Returned (make_ok (enif_make_tuple2 ATOM_EXIT (enif_make_int 7))) /\
  fst (run_nif sys_kill (scripted child_exited_7)
         (run_calls [nif_sys_kill; nif_sys_close (enif_make_int 0) 0; nif_is_alive]
            (scripted child_exited_7)
            (snd (run_nif sys_wait (scripted child_exited_7) fresh_world))))
  = Returned (make_ok (enif_make_int 0)).
Proof.
  pose proof (reaped_handle_stays_reaped (scripted child_exited_7) fresh_world
                [nif_sys_kill; nif_sys_close (enif_make_int 0) 0; nif_is_alive] eq_refl) as Hc.
  cbv zeta in Hc.
  destruct Hc as (_ & _ & Hwait & _ & _ & _ & _ & Hkill & _).
  split; [reflexivity | split; [exact Hwait | exact Hkill]].
Defined.

(** ** Liveness query *)

(** C1: what the code does.  On a reaped handle ([pid] is [CMD_EXIT])
    [is_alive] returns [{ok, true}] without any call to the host; on an
    un-reaped handle it calls [kill(pid, 0)] and returns [{ok, true}] when
    that returns 0 and [{ok, false}] otherwise. *)
Theorem is_alive_on_reaped_handle_answers_true (h : Host) (w : World) :
  (pid (ctx w) = CMD_EXIT ->
   run_nif is_alive h w
   = (Returned (make_ok ATOM_TRUE),
      mkWorld (ctx w) (errno w) false (trace w))) /\
  (pid (ctx w) <> CMD_EXIT ->
   trace (snd (run_nif is_alive h w))
   = trace w ++ [call_kill (pid (ctx w)) 0] /\
   fst (run_nif is_alive h w)
   = Returned (make_ok (if rv (h (trace w) (call_kill (pid (ctx w)) 0)) =? 0
                        then ATOM_TRUE else ATOM_FALSE))).
Proof.
  split; intros Hpid; nif_unfold.
  - now test_true.
  - test_false. cbn.
    now destruct (rv (h (trace w) (call_kill (pid (ctx w)) 0)) =? 0).
Qed.

(** C1 on the handle whose child was reaped with exit code 7. *)
Lemma is_alive_on_reaped_handle_example :
  run_nif is_alive (scripted quiet) reaped_world
  = (Returned (make_ok ATOM_TRUE), reaped_world).
Proof.
  apply (is_alive_on_reaped_handle_answers_true (scripted quiet) reaped_world).
  reflexivity.
Defined.

(** ** Reading *)

(** C10: what the code does.  With the output direction open and a size
    below 1 that is not [UNBUFFERED_READ], [sys_read] ends in a [badarg]
    exception, yet it has declared the buffer with [request] elements and
    called [read] with the count [request] converted to [size_t]. *)
Theorem sys_read_of_bad_size_still_reads `{Posix}
    (h : Host) (w : World) (request : Z) :
  cmd_output_fd (ctx w) <> PIPE_CLOSED ->
  request < 1 ->
  request <> UNBUFFERED_READ ->
  fst (run_nif (sys_read request) h w) = RaisedBadarg /\
  exists rest,
    trace (snd (run_nif (sys_read request) h w))
    = trace w
      ++ call_read (cmd_output_fd (ctx w)) request (to_size_t request) :: rest.
Proof.
  intros Hopen Hsmall Hnot. nif_unfold.
  tests; (split; [reflexivity |]);
    repeat rewrite <- app_assoc; cbn [app]; eexists; reflexivity.
Qed.

(** C10 on the fresh handle with size 0: [read] is called on a buffer of
    0 elements with count 0, and the call raises [badarg]. *)
Lemma sys_read_of_bad_size_example :
  run_nif (sys_read 0) (scripted quiet) fresh_world
  = (RaisedBadarg, mkWorld fresh_ctx 0 true [call_read 8 0 0]) /\
  fst (run_nif (sys_read (-5)) (scripted quiet) fresh_world) = RaisedBadarg.
Proof.
  split; [reflexivity |].
  apply (sys_read_of_bad_size_still_reads (scripted quiet) fresh_world (-5));
    unfold PIPE_CLOSED, UNBUFFERED_READ; cbn; lia.
Defined.

(** C2, as stated, fails on the size of the cap: the buffer of an
    unbuffered read has [PIPE_BUF_SIZE] = 65535 elements, one less than
    64 KiB, and a request for 65536 bytes is cut down to a [read] of 65535
    bytes.  It fails as well on a size that is no C [int]: 2^32 + 1 is
    not converted, and the [read] is made with what the variable
    [request] held, here 3. *)
Lemma read_cap_is_one_below_64KiB :
  trace (snd (run_nif (sys_read_argv (enif_make_int UNBUFFERED_READ) 0)
                      (scripted quiet) fresh_world))
  = [call_read 8 65535 65535] /\
  trace (snd (run_nif (sys_read_argv (enif_make_int 65536) 0)
                      (scripted quiet) fresh_world))
  = [call_read 8 65535 65535] /\
  PIPE_BUF_SIZE = 64 * 1024 - 1 /\
  enif_get_int (enif_make_int 4294967297) = None /\
  trace (snd (run_nif (sys_read_argv (enif_make_int 4294967297) 3)
                      (scripted quiet) fresh_world))
  = [call_read 8 3 3].
Proof. repeat split. Qed.

(** C2, amended: with the output direction open and a size [argv1] that
    [enif_get_int] converts (an integer that fits a C [int]), [sys_read]
    calls [read] exactly once, first of all its calls, and possibly
    registers read readiness after it.  For a positive size [request] the
    buffer length and the byte count passed to [read] are both
    [min request PIPE_BUF_SIZE], at most 65535; for [UNBUFFERED_READ]
    both are [PIPE_BUF_SIZE] = 65535.  What the variable [request] held
    before the conversion plays no part. *)
Theorem read_count_is_capped_at_PIPE_BUF_SIZE `{Posix}
    (h : Host) (w : World) (argv1 : ERL_NIF_TERM)
    (request indeterminate : Z) :
  enif_get_int argv1 = Some request ->
  cmd_output_fd (ctx w) <> PIPE_CLOSED ->
  0 < request \/ request = UNBUFFERED_READ ->
  let n := if request =? UNBUFFERED_READ then PIPE_BUF_SIZE
           else Z.min request PIPE_BUF_SIZE in
  1 <= n <= 65535 /\
  (request = UNBUFFERED_READ -> n = 65535) /\
  exists rest,
    trace (snd (run_nif (sys_read_argv argv1 indeterminate) h w))
    = trace w ++ call_read (cmd_output_fd (ctx w)) n n :: rest /\
    (rest = [] \/
     rest = [call_enif_select (cmd_output_fd (ctx w)) ERL_NIF_SELECT_READ
                              (read_resource (ctx w))]).
Proof.
  intros Hget Hopen Hreq n. subst n.
  unfold sys_read_argv.
  rewrite (unchecked_get_int_of_int argv1 request indeterminate Hget).
  nif_unfold.
  tests;
    try rewrite Z.min_l by lia; try rewrite Z.min_r by lia;
    rewrite to_size_t_in_range by lia;
    (split; [lia | split; [intros; try reflexivity; lia |]]);
    repeat rewrite <- app_assoc; cbn [app];
    eexists; (split; [reflexivity | auto]).
Qed.

(** C2 on the fresh handle: a request for 70000 bytes is served by one
    [read] of 65535 bytes. *)
Lemma read_count_is_capped_example :
  exists rest,
    trace (snd (run_nif (sys_read_argv (enif_make_int 70000) 0)
                        (scripted delivers_2) fresh_world))
    = call_read 8 65535 65535 :: rest.
Proof.
  destruct (read_count_is_capped_at_PIPE_BUF_SIZE
              (scripted delivers_2) fresh_world (enif_make_int 70000) 70000 0)
    as (_ & _ & rest & Ht & _).
  - reflexivity.
  - unfold PIPE_CLOSED. cbn. lia.
  - left. lia.
  - exists rest. exact Ht.
Defined.

(** C7, as stated, fails when the unbuffered read cannot make progress:
    on the fresh handle, with a host whose [read] fails with [EAGAIN],
    [sys_read] with [UNBUFFERED_READ] registers read readiness on the
    output descriptor and returns [{error, eagain}]. *)
Lemma unbuffered_read_that_would_block_registers :
  fst (run_nif (sys_read UNBUFFERED_READ) (scripted would_block) fresh_world)
  = Returned (make_error ATOM_EAGAIN) /\
  trace (snd (run_nif (sys_read UNBUFFERED_READ) (scripted would_block)
                      fresh_world))
  = [call_read 8 65535 65535; call_enif_select 8 ERL_NIF_SELECT_READ 100].
Proof. split; reflexivity. Qed.

(** C7, amended: with the output direction open, an unbuffered read whose
    [read] system call returns a byte count (0 or more) returns [{ok,
    Bytes}] with the bytes read, however few, and its only call to the
    host is that [read]: no readiness is registered. *)
Theorem unbuffered_read_that_succeeds_registers_nothing `{Posix}
    (h : Host) (w : World) :
  cmd_output_fd (ctx w) <> PIPE_CLOSED ->
  let rd := call_read (cmd_output_fd (ctx w)) PIPE_BUF_SIZE PIPE_BUF_SIZE in
  0 <= rv (h (trace w) rd) ->
  run_nif (sys_read UNBUFFERED_READ) h w
  = (Returned (make_ok (enif_make_binary
                          (firstn (Z.to_nat (rv (h (trace w) rd)))
                                  (rv_buf (h (trace w) rd))))),
     mkWorld (ctx w) (rv_errno (h (trace w) rd)) false (trace w ++ [rd])).
Proof.
  intros Hopen rd Hresult. subst rd. nif_unfold. test_false.
  cbn [UNBUFFERED_READ Z.eqb Pos.eqb]. simpl_world.
  rewrite (to_size_t_in_range PIPE_BUF_SIZE) by (unfold PIPE_BUF_SIZE; lia).
  rewrite (proj2 (Z.geb_le _ _)) by assumption.
  rewrite !orb_true_r. reflexivity.
Qed.

(** C7 on the fresh handle: two bytes arrive, far fewer than the cap; they
    are returned and nothing is registered. *)
Lemma unbuffered_read_that_succeeds_example :
  run_nif (sys_read UNBUFFERED_READ) (scripted delivers_2) fresh_world
  = (Returned (make_ok (enif_make_binary [x68; x65])),
     mkWorld fresh_ctx 0 false [call_read 8 65535 65535]).
Proof.
  apply (unbuffered_read_that_succeeds_registers_nothing
           (scripted delivers_2) fresh_world).
  - unfold PIPE_CLOSED. cbn. lia.
  - cbn. lia.
Defined.

(** ** Writing *)

Lemma size_pos (bin : list byte) : bin <> [] -> 0 < size bin.
Proof. destruct bin; [congruence | unfold size; cbn [List.length]; lia]. Qed.

(** C4, as stated, fails when the readiness registration is refused: on
    the fresh handle, with a host that accepts 3 of the 5 bytes and whose
    [enif_select] fails, [sys_write] returns [{error, Retval}] with the
    value [enif_select] returned, not [{ok, 3}]. *)
Lemma partial_write_with_refused_registration :
  run_nif (sys_write (enif_make_binary hello)) (scripted select_refused_after_3)
          fresh_world
  = (Returned (make_error (enif_make_int (-2147483640))),
     mkWorld fresh_ctx 0 false
             [call_write 7 hello 5;
              call_enif_select 7 ERL_NIF_SELECT_WRITE 101]).
Proof. reflexivity. Qed.

(** C4, amended: on an open input direction and a non-empty binary,
    [sys_write] makes one [write] call.  When that consumes [n] bytes with
    [0 < n < size bin], it then asks [enif_select] for write readiness on
    the input descriptor; it returns [{ok, n}] when [enif_select] returns
    0 and [{error, Retval}] with the value [enif_select] returned
    otherwise.  When [n = size bin] it returns [{ok, n}] and makes no other
    call.  The count is returned as a C [int], which is [n] itself up to
    [INT_MAX].  The handle is unchanged in every case. *)
Theorem sys_write_partial_and_full `{Posix}
    (h : Host) (w : World) (bin : list byte) (n : Z) :
  cmd_input_fd (ctx w) <> PIPE_CLOSED ->
  bin <> [] ->
  let wr := call_write (cmd_input_fd (ctx w)) bin (size bin) in
  let sel := call_enif_select (cmd_input_fd (ctx w)) ERL_NIF_SELECT_WRITE
                              (write_resource (ctx w)) in
  let retval := rv (h (trace w ++ [wr]) sel) in
  let after := run_nif (sys_write (enif_make_binary bin)) h w in
  rv (h (trace w) wr) = n ->
  (0 < n < size bin ->
   trace (snd after) = trace w ++ [wr; sel] /\
   (retval = 0 -> fst after = Returned (make_ok (enif_make_int (to_int n)))) /\
   (retval <> 0 ->
    fst after = Returned (make_error (enif_make_int retval)))) /\
  (n = size bin ->
   trace (snd after) = trace w ++ [wr] /\
   fst after = Returned (make_ok (enif_make_int (to_int n)))) /\
  (0 <= n <= INT_MAX -> to_int n = n) /\
  ctx (snd after) = ctx w.
Proof.
  intros Hopen Hbin wr sel retval after Hn.
  pose proof (size_pos bin Hbin) as Hsz.
  subst wr sel retval after. nif_unfold. cbn [enif_inspect_binary].
  test_false. rewrite (proj2 (Z.eqb_neq (size bin) 0)) by lia.
  simpl_world. rewrite Hn. clear Hn.
  split; [| split; [| split]].
  - intros Hpartial. tests; repeat rewrite <- app_assoc; cbn [app];
      (split; [reflexivity | split; intros; (reflexivity || lia)]).
  - intros ->. tests; (split; reflexivity).
  - intros Hrange. apply to_int_in_range. unfold INT_MIN. lia.
  - tests; reflexivity.
Qed.

(** C4 on the fresh handle: 3 of 5 bytes accepted gives [{ok, 3}] and a
    write-readiness registration; 5 of 5 gives [{ok, 5}] and none. *)
Lemma sys_write_partial_and_full_example :
  fst (run_nif (sys_write (enif_make_binary hello)) (scripted accepts_3)
               fresh_world)
  = Returned (make_ok (enif_make_int 3)) /\
  trace (snd (run_nif (sys_write (enif_make_binary hello)) (scripted accepts_3)
                      fresh_world))
  = [call_write 7 hello 5; call_enif_select 7 ERL_NIF_SELECT_WRITE 101] /\
  fst (run_nif (sys_write (enif_make_binary hello)) (scripted accepts_5)
               fresh_world)
  = Returned (make_ok (enif_make_int 5)) /\
  trace (snd (run_nif (sys_write (enif_make_binary hello)) (scripted accepts_5)
                      fresh_world))
  = [call_write 7 hello 5].
Proof.
  assert (Hopen : cmd_input_fd (ctx fresh_world) <> PIPE_CLOSED)
    by (unfold PIPE_CLOSED; cbn; lia).
  assert (Hbin : hello <> []) by discriminate.
  destruct (sys_write_partial_and_full (scripted accepts_3) fresh_world hello 3
              Hopen Hbin eq_refl) as (Hpartial & _).
  destruct (sys_write_partial_and_full (scripted accepts_5) fresh_world hello 5
              Hopen Hbin eq_refl) as (_ & Hfull & _).
  assert (H3 : 0 < 3 < size hello) by (cbn; lia).
  destruct (Hpartial H3) as (Htrace3 & Hterm3 & _).
  destruct (Hfull eq_refl) as [Htrace5 Hterm5].
  split; [exact (Hterm3 eq_refl) |].
  split; [exact Htrace3 |].
  split; [exact Hterm5 | exact Htrace5].
Defined.

(** ** Transient conditions *)

(** C5, as stated, fails when the readiness registration is refused: on
    the fresh handle, with a host whose [write] fails with [EAGAIN] and
    whose [enif_select] fails, [sys_write] returns [{error, Retval}] with
    the value [enif_select] returned, not [{error, eagain}]; so does
    [sys_read].  A read whose size is no C [int] is another matter: the
    size is not converted, and with 0 left in the variable [request] the
    read that would block raises [badarg]. *)
Lemma would_block_with_refused_registration :
  run_nif (sys_write (enif_make_binary hello))
          (scripted would_block_select_refused) fresh_world
  = (Returned (make_error (enif_make_int (-2147483640))),
     mkWorld fresh_ctx 0 false
             [call_write 7 hello 5;
              call_enif_select 7 ERL_NIF_SELECT_WRITE 101]) /\
  fst (run_nif (sys_read_argv (enif_make_int 10) 0)
               (scripted would_block_select_refused) fresh_world)
  = Returned (make_error (enif_make_int (-2147483640))) /\
  run_nif (sys_read_argv (enif_make_int 4294967297) 0)
          (scripted would_block) fresh_world
  = (RaisedBadarg,
     mkWorld fresh_ctx 0 true
             [call_read 8 0 0; call_enif_select 8 ERL_NIF_SELECT_READ 100]).
Proof. repeat split. Qed.

(** C5, amended: when the [write] of [sys_write] (open input direction,
    non-empty binary) or the [read] of [sys_read] (open output direction,
    a size that [enif_get_int] converts, so one that fits a C [int], and
    that is [UNBUFFERED_READ] or at least 1) fails with [errno] [EAGAIN] or
    [EWOULDBLOCK], the call asks [enif_select] for readiness of its own
    direction (write readiness on the input descriptor, read readiness on
    the output descriptor) and returns [{error, eagain}] when [enif_select]
    returns 0, and [{error, Retval}] with the value [enif_select] returned
    otherwise.  When the system call fails with any other [errno], the
    call returns [{error, Errno}] and makes no call to [enif_select]. *)
Theorem would_block_registers_and_reports_eagain `{Posix}
    (h : Host) (w : World) (bin : list byte) (argv1 : ERL_NIF_TERM)
    (request indeterminate : Z) :
  (cmd_input_fd (ctx w) <> PIPE_CLOSED ->
   bin <> [] ->
   let wr := call_write (cmd_input_fd (ctx w)) bin (size bin) in
   let sel := call_enif_select (cmd_input_fd (ctx w)) ERL_NIF_SELECT_WRITE
                               (write_resource (ctx w)) in
   let retval := rv (h (trace w ++ [wr]) sel) in
   let e := rv_errno (h (trace w) wr) in
   let after := run_nif (sys_write (enif_make_binary bin)) h w in
   rv (h (trace w) wr) < 0 ->
   (e = EAGAIN \/ e = EWOULDBLOCK ->
    trace (snd after) = trace w ++ [wr; sel] /\
    (retval = 0 -> fst after = Returned (make_error ATOM_EAGAIN)) /\
    (retval <> 0 ->
     fst after = Returned (make_error (enif_make_int retval)))) /\
   (e <> EAGAIN -> e <> EWOULDBLOCK ->
    trace (snd after) = trace w ++ [wr] /\
    fst after = Returned (make_error (enif_make_int e)))) /\
  (enif_get_int argv1 = Some request ->
   cmd_output_fd (ctx w) <> PIPE_CLOSED ->
   1 <= request \/ request = UNBUFFERED_READ ->
   let n := if request =? UNBUFFERED_READ then PIPE_BUF_SIZE
            else Z.min request PIPE_BUF_SIZE in
   let rd := call_read (cmd_output_fd (ctx w)) n n in
   let sel := call_enif_select (cmd_output_fd (ctx w)) ERL_NIF_SELECT_READ
                               (read_resource (ctx w)) in
   let retval := rv (h (trace w ++ [rd]) sel) in
   let e := rv_errno (h (trace w) rd) in
   let after := run_nif (sys_read_argv argv1 indeterminate) h w in
   rv (h (trace w) rd) < 0 ->
   (e = EAGAIN \/ e = EWOULDBLOCK ->
    trace (snd after) = trace w ++ [rd; sel] /\
    (retval = 0 -> fst after = Returned (make_error ATOM_EAGAIN)) /\
    (retval <> 0 ->
     fst after = Returned (make_error (enif_make_int retval)))) /\
   (e <> EAGAIN -> e <> EWOULDBLOCK ->
    trace (snd after) = trace w ++ [rd] /\
    fst after = Returned (make_error (enif_make_int e)))).
Proof.
  split.
  - intros Hopen Hbin. pose proof (size_pos bin Hbin) as Hsz.
    cbv zeta. nif_unfold. cbn [enif_inspect_binary].
    tests; repeat rewrite <- app_assoc; cbn [app];
      intros Hneg; try lia;
      (split;
       [intros Hagain; try lia;
        (split; [reflexivity | split; intros; (reflexivity || lia)])
       |intros Hne1 Hne2; try lia; (split; reflexivity)]).
  - intros Hget Hopen Hreq. cbv zeta. unfold sys_read_argv.
    rewrite (unchecked_get_int_of_int argv1 request indeterminate Hget).
    nif_unfold.
    tests;
      try rewrite Z.min_l by lia; try rewrite Z.min_r by lia;
      rewrite ?to_size_t_in_range by lia;
      repeat match goal with
             | Hc : context [to_size_t ?z] |- _ =>
                 rewrite (to_size_t_in_range z) in Hc by lia
             end;
      repeat rewrite <- app_assoc; cbn [app];
      intros Hneg; try lia;
      (split;
       [intros Hagain; try lia;
        (split; [reflexivity | split; intros; (reflexivity || lia)])
       |intros Hne1 Hne2; try lia; (split; reflexivity)]).
Qed.

(** C5 on the fresh handle: a [write] and a [read] that would block give
    [{error, eagain}] and a registration each; a [write] that fails with
    [EPIPE] gives [{error, 32}] and no registration. *)
Lemma would_block_registers_example :
  fst (run_nif (sys_write (enif_make_binary hello)) (scripted would_block)
               fresh_world)
  = Returned (make_error ATOM_EAGAIN) /\
  trace (snd (run_nif (sys_write (enif_make_binary hello))
                      (scripted would_block) fresh_world))
  = [call_write 7 hello 5; call_enif_select 7 ERL_NIF_SELECT_WRITE 101] /\
  fst (run_nif (sys_read_argv (enif_make_int 10) 0) (scripted would_block)
               fresh_world)
  = Returned (make_error ATOM_EAGAIN) /\
  run_nif (sys_write (enif_make_binary hello)) (scripted broken_pipe)
          fresh_world
  = (Returned (make_error (enif_make_int 32)),
     mkWorld fresh_ctx 32 false [call_write 7 hello 5]).
Proof.
  assert (Hin : cmd_input_fd (ctx fresh_world) <> PIPE_CLOSED)
    by (unfold PIPE_CLOSED; cbn; lia).
  assert (Hout : cmd_output_fd (ctx fresh_world) <> PIPE_CLOSED)
    by (unfold PIPE_CLOSED; cbn; lia).
  assert (Hbin : hello <> []) by discriminate.
  assert (Hreq : 1 <= 10 \/ 10 = UNBUFFERED_READ) by (left; lia).
  assert (Hneg : -1 < 0) by lia.
  assert (Hget : enif_get_int (enif_make_int 10) = Some 10) by reflexivity.
  destruct (would_block_registers_and_reports_eagain
              (scripted would_block) fresh_world hello (enif_make_int 10) 10 0)
    as [Hwrite Hread].
  destruct (Hwrite Hin Hbin Hneg) as [Hw _].
  destruct (Hread Hget Hout Hreq Hneg) as [Hr _].
  destruct (Hw (or_introl eq_refl)) as (Htrace & Hterm & _).
  destruct (Hr (or_introl eq_refl)) as (_ & Hterm' & _).
  split; [exact (Hterm eq_refl) |].
  split; [exact Htrace |].
  split; [exact (Hterm' eq_refl) | reflexivity].
Defined.

(** * Further properties of the NIFs *)

(** ** What a call can touch *)

(** [sys_write], [sys_read], [is_alive], [sys_terminate], [sys_kill] and
    [os_pid] never change the handle, whatever their argument and
    whatever the host answers: a failed or partial transfer closes
    nothing, a signal marks nothing.  [sys_wait] never changes the two
    descriptors or the resource objects, so the pipes of a reaped child
    stay usable. *)
Theorem handle_fields_a_call_can_change `{Posix}
    (h : Host) (w : World) (argv1 : ERL_NIF_TERM) (request : Z) :
  ctx (snd (run_nif (sys_write argv1) h w)) = ctx w /\
  ctx (snd (run_nif (sys_read request) h w)) = ctx w /\
  ctx (snd (run_nif is_alive h w)) = ctx w /\
  ctx (snd (run_nif sys_terminate h w)) = ctx w /\
  ctx (snd (run_nif sys_kill h w)) = ctx w /\
  ctx (snd (run_nif os_pid h w)) = ctx w /\
  cmd_input_fd (ctx (snd (run_nif sys_wait h w))) = cmd_input_fd (ctx w) /\
  cmd_output_fd (ctx (snd (run_nif sys_wait h w))) = cmd_output_fd (ctx w) /\
  read_resource (ctx (snd (run_nif sys_wait h w))) = read_resource (ctx w) /\
  write_resource (ctx (snd (run_nif sys_wait h w))) = write_resource (ctx w).
Proof.
  repeat split; nif_unfold; branches; reflexivity.
Qed.

(** One NIF call leaves each descriptor as it was or closed, and never
    changes the resource objects. *)
Lemma nif_call_only_closes `{Posix} (h : Host) (w : World) (call : nif_call) :
  (cmd_input_fd (ctx (snd (run_nif (nif_funcs call) h w)))
   = cmd_input_fd (ctx w) \/
   cmd_input_fd (ctx (snd (run_nif (nif_funcs call) h w))) = PIPE_CLOSED) /\
  (cmd_output_fd (ctx (snd (run_nif (nif_funcs call) h w)))
   = cmd_output_fd (ctx w) \/
   cmd_output_fd (ctx (snd (run_nif (nif_funcs call) h w))) = PIPE_CLOSED) /\
  read_resource (ctx (snd (run_nif (nif_funcs call) h w)))
  = read_resource (ctx w) /\
  write_resource (ctx (snd (run_nif (nif_funcs call) h w)))
  = write_resource (ctx w).
Proof.
  destruct call; unfold nif_funcs; nif_unfold; branches; auto.
Qed.

(** Through any sequence of NIF calls, under any host, each descriptor of
    the handle keeps its number until it becomes [PIPE_CLOSED], and a
    closed descriptor stays closed: no call reopens a direction or stores
    another descriptor.  The resource objects never change. *)
Theorem descriptors_only_ever_become_closed `{Posix}
    (h : Host) (calls : list nif_call) (w : World) :
  (cmd_input_fd (ctx (run_calls calls h w)) = cmd_input_fd (ctx w) \/
   cmd_input_fd (ctx (run_calls calls h w)) = PIPE_CLOSED) /\
  (cmd_output_fd (ctx (run_calls calls h w)) = cmd_output_fd (ctx w) \/
   cmd_output_fd (ctx (run_calls calls h w)) = PIPE_CLOSED) /\
  read_resource (ctx (run_calls calls h w)) = read_resource (ctx w) /\
  write_resource (ctx (run_calls calls h w)) = write_resource (ctx w).
Proof.
  revert w. induction calls as [| call rest IH]; intros w; cbn [run_calls].
  - auto.
  - destruct (nif_call_only_closes h w call) as (Hi & Ho & Hr & Hw).
    destruct (IH (snd (run_nif (nif_funcs call) h w)))
      as (Hi' & Ho' & Hr' & Hw').
    rewrite Hr', Hw', Hr, Hw.
    repeat split; try reflexivity.
    + destruct Hi' as [Hi' | Hi']; [rewrite Hi'; exact Hi | now right].
    + destruct Ho' as [Ho' | Ho']; [rewrite Ho'; exact Ho | now right].
Qed.

(** ** What reaches the host *)

(** Closes a goal [exists new, trace = old ++ new /\ _] whose trace is
    written out. *)
Ltac new_calls :=
  first [ exists []; split; [symmetry; apply app_nil_r |]
        | eexists; split; [repeat rewrite <- app_assoc; reflexivity |] ].

(** The calls one NIF call adds to the trace: two at most, one system
    call at most, none of them on descriptor or process -1. *)
Lemma nif_call_adds `{Posix} (h : Host) (w : World) (call : nif_call) :
  exists new,
    trace (snd (run_nif (nif_funcs call) h w)) = trace w ++ new /\
    (List.length new <= 2)%nat /\
    (List.length (filter is_syscall new) <= 1)%nat /\
    Forall (fun c => call_target c <> -1) new.
Proof.
  destruct call; unfold nif_funcs; nif_unfold; branches; new_calls;
    cbn [app List.length filter is_syscall];
    (split; [lia | split; [lia |]]);
    unfold PIPE_CLOSED, CMD_EXIT in *;
    repeat (constructor; cbn [call_target]; try assumption).
Qed.

(** Every NIF call makes a single attempt: whatever its argument and
    whatever the host answers, it makes at most one system call, followed
    or preceded by at most one [enif_select]; it never repeats a [read],
    [write], [kill], [waitpid] or [close]. *)
Theorem one_attempt_per_call `{Posix}
    (h : Host) (w : World) (call : nif_call) :
  exists new,
    trace (snd (run_nif (nif_funcs call) h w)) = trace w ++ new /\
    (List.length new <= 2)%nat /\
    (List.length (filter is_syscall new) <= 1)%nat.
Proof.
  destruct (nif_call_adds h w call) as (new & Ht & Hl & Hs & _).
  exists new. auto.
Qed.

(** Through any sequence of NIF calls, under any host, no call is ever
    made on -1: no [kill(-1, _)], which would signal every process, no
    [waitpid(-1, _)], which would reap any child, and no [read], [write],
    [close] or [enif_select] on a descriptor already marked
    [PIPE_CLOSED]. *)
Theorem no_call_targets_minus_one `{Posix}
    (h : Host) (calls : list nif_call) (w : World) :
  exists new,
    trace (run_calls calls h w) = trace w ++ new /\
    Forall (fun c => call_target c <> -1) new.
Proof.
  revert w. induction calls as [| call rest IH]; intros w; cbn [run_calls].
  - exists []. split; [symmetry; apply app_nil_r | constructor].
  - destruct (nif_call_adds h w call) as (new1 & Ht1 & _ & _ & Hf1).
    destruct (IH (snd (run_nif (nif_funcs call) h w))) as (new2 & Ht2 & Hf2).
    exists (new1 ++ new2). split.
    + rewrite Ht2, Ht1. now rewrite app_assoc.
    + apply Forall_app. auto.
Qed.

(** ** Signals and waiting on a live handle *)

(** On a handle that is not reaped, [sys_terminate] sends [SIGTERM] and
    [sys_kill] sends [SIGKILL] to the handle's pid, once; the value [kill]
    returned is handed back inside [{ok, _}] even when it is -1, and the
    handle is not marked in any way. *)
Theorem signal_is_sent_once_and_reported_in_ok `{Posix}
    (h : Host) (w : World) :
  pid (ctx w) <> CMD_EXIT ->
  run_nif sys_terminate h w
  = (Returned (make_ok (enif_make_int
                          (rv (h (trace w) (call_kill (pid (ctx w)) SIGTERM))))),
     mkWorld (ctx w)
             (rv_errno (h (trace w) (call_kill (pid (ctx w)) SIGTERM)))
             false
             (trace w ++ [call_kill (pid (ctx w)) SIGTERM])) /\
  run_nif sys_kill h w
  = (Returned (make_ok (enif_make_int
                          (rv (h (trace w) (call_kill (pid (ctx w)) SIGKILL))))),
     mkWorld (ctx w)
             (rv_errno (h (trace w) (call_kill (pid (ctx w)) SIGKILL)))
             false
             (trace w ++ [call_kill (pid (ctx w)) SIGKILL])).
Proof.
  intros Hlive. split; nif_unfold; now test_false.
Qed.

(** On the fresh handle, with a host whose [kill] fails: [{ok, -1}]. *)
Lemma signal_is_sent_once_example :
  run_nif sys_kill (scripted kill_fails) fresh_world
  = (Returned (make_ok (enif_make_int (-1))),
     mkWorld fresh_ctx 3 false [call_kill 4242 9]).
Proof.
  assert (Hlive : pid (ctx fresh_world) <> CMD_EXIT)
    by (unfold CMD_EXIT; cbn; lia).
  exact (proj2 (signal_is_sent_once_and_reported_in_ok
                  (scripted kill_fails) fresh_world Hlive)).
Defined.

(** On a handle that is not reaped, a [waitpid] that returns anything
    but the handle's pid (0 while the child runs, -1 on an error) makes
    [sys_wait] return [{error, {Wpid, Status}}] and leave the handle as it
    was, so that the wait can be repeated; the call is made with
    [WNOHANG]. *)
Theorem sys_wait_without_reap_changes_nothing `{Posix}
    (h : Host) (w : World) :
  pid (ctx w) <> CMD_EXIT ->
  let r := h (trace w) (call_waitpid (pid (ctx w)) WNOHANG) in
  rv r <> pid (ctx w) ->
  run_nif sys_wait h w
  = (Returned (make_error (enif_make_tuple2 (enif_make_int (rv r))
                                            (enif_make_int (rv_status r)))),
     mkWorld (ctx w) (rv_errno r) false
             (trace w ++ [call_waitpid (pid (ctx w)) WNOHANG])).
Proof.
  intros Hlive r Hwpid. subst r. nif_unfold. now do 2 test_false.
Qed.

(** On the fresh handle, with a host whose [waitpid] returns 0. *)
Lemma sys_wait_without_reap_example :
  run_nif sys_wait (scripted quiet) fresh_world
  = (Returned (make_error (enif_make_tuple2 (enif_make_int 0)
                                            (enif_make_int 0))),
     mkWorld fresh_ctx 0 false [call_waitpid 4242 1]).
Proof.
  assert (Hlive : pid (ctx fresh_world) <> CMD_EXIT)
    by (unfold CMD_EXIT; cbn; lia).
  assert (Hwpid : rv (scripted quiet (trace fresh_world)
                        (call_waitpid (pid (ctx fresh_world)) WNOHANG))
                  <> pid (ctx fresh_world))
    by (cbn; lia).
  exact (sys_wait_without_reap_changes_nothing (scripted quiet) fresh_world
           Hlive Hwpid).
Defined.

(** The classification of [sys_wait_classifies] on the fresh handle: a
    child that exited with code 7, a child killed by signal 9. *)
Lemma sys_wait_classifies_example :
  fst (run_nif sys_wait (scripted child_exited_7) fresh_world)
  = Returned (make_ok (enif_make_tuple2 ATOM_EXIT (enif_make_int 7))) /\
  fst (run_nif sys_wait (scripted child_killed_9) fresh_world)
  = Returned (make_ok (enif_make_tuple2 ATOM_SIGNALED (enif_make_int 9))).
Proof.
  assert (Hlive : pid (ctx fresh_world) <> CMD_EXIT)
    by (unfold CMD_EXIT; cbn; lia).
  destruct (sys_wait_classifies (scripted child_exited_7) fresh_world
              Hlive eq_refl) as (Hexit & _).
  destruct (sys_wait_classifies (scripted child_killed_9) fresh_world
              Hlive eq_refl) as (_ & Hsig & _).
  split; [exact (Hexit eq_refl) | exact (Hsig eq_refl eq_refl)].
Defined.

(** ** The pid reported *)

(** [os_pid] never calls the host and never changes the world.  On a
    handle that is not reaped it returns [{ok, Pid}]; once a [sys_wait]
    has reaped the child it returns [{ok, 0}], also after any further NIF
    calls. *)
Theorem os_pid_is_zero_once_reaped `{Posix}
    (h : Host) (w : World) (calls : list nif_call) :
  (pid (ctx w) <> CMD_EXIT ->
   run_nif os_pid h w
   = (Returned (make_ok (enif_make_int (pid (ctx w)))),
      mkWorld (ctx w) (errno w) false (trace w))) /\
  (rv (h (trace w) (call_waitpid (pid (ctx w)) WNOHANG)) = pid (ctx w) ->
   let later := run_calls calls h (snd (run_nif sys_wait h w)) in
   run_nif os_pid h later
   = (Returned (make_ok (enif_make_int 0)),
      mkWorld (ctx later) (errno later) false (trace later))).
Proof.
  split.
  - intros Hlive. nif_unfold. now test_false.
  - intros Hwpid later.
    destruct (successful_reap h w Hwpid) as [Hpid _].
    destruct (run_calls_keeps_reaped h calls _ Hpid) as (Hp & _).
    fold later in Hp. nif_unfold. now test_true.
Qed.

(** On the fresh handle: 4242 before the reap, 0 after it. *)
Lemma os_pid_is_zero_once_reaped_example :
  fst (run_nif os_pid (scripted child_exited_7) fresh_world)
  = Returned (make_ok (enif_make_int 4242)) /\
  fst (run_nif os_pid (scripted child_exited_7)
         (run_calls [nif_sys_read (enif_make_int 10) 0; nif_sys_close (enif_make_int 1) 0]
            (scripted child_exited_7)
            (snd (run_nif sys_wait (scripted child_exited_7) fresh_world))))
  = Returned (make_ok (enif_make_int 0)).
Proof.
  destruct (os_pid_is_zero_once_reaped (scripted child_exited_7) fresh_world
              [nif_sys_read (enif_make_int 10) 0; nif_sys_close (enif_make_int 1) 0]) as [Hlive Hreaped].
  split.
  - rewrite Hlive by (unfold CMD_EXIT; cbn; lia). reflexivity.
  - cbv zeta in Hreaped. rewrite (Hreaped eq_refl). reflexivity.
Defined.

(** ** Partial transfers *)

(** A buffered read (a size that [enif_get_int] converts, so one that
    fits a C [int], and that is at least 1) on an open output direction
    makes one [read] of [min request PIPE_BUF_SIZE] bytes.  When [read] returns
    exactly [request] bytes, or 0 (end of stream), the bytes are returned
    in [{ok, _}] and nothing is registered.  When it returns another
    positive count, read readiness is asked for on the output descriptor,
    and the bytes are returned in [{ok, _}] if [enif_select] returned 0,
    [{error, Retval}] otherwise.  A request above [PIPE_BUF_SIZE] can
    therefore never be met in full: every read that yields bytes
    registers. *)
Theorem buffered_read_partial_and_full `{Posix}
    (h : Host) (w : World) (argv1 : ERL_NIF_TERM)
    (request indeterminate : Z) :
  enif_get_int argv1 = Some request ->
  cmd_output_fd (ctx w) <> PIPE_CLOSED ->
  1 <= request ->
  let n := Z.min request PIPE_BUF_SIZE in
  let rd := call_read (cmd_output_fd (ctx w)) n n in
  let sel := call_enif_select (cmd_output_fd (ctx w)) ERL_NIF_SELECT_READ
                              (read_resource (ctx w)) in
  let reply := h (trace w) rd in
  let bin := enif_make_binary (firstn (Z.to_nat (rv reply)) (rv_buf reply)) in
  let retval := rv (h (trace w ++ [rd]) sel) in
  let after := run_nif (sys_read_argv argv1 indeterminate) h w in
  (rv reply = request \/ rv reply = 0 ->
   after = (Returned (make_ok bin),
            mkWorld (ctx w) (rv_errno reply) false (trace w ++ [rd]))) /\
  (0 < rv reply -> rv reply <> request ->
   trace (snd after) = trace w ++ [rd; sel] /\
   (retval = 0 -> fst after = Returned (make_ok bin)) /\
   (retval <> 0 ->
    fst after = Returned (make_error (enif_make_int retval)))) /\
  (PIPE_BUF_SIZE < request -> 0 < rv reply <= n ->
   trace (snd after) = trace w ++ [rd; sel]).
Proof.
  intros Hget Hopen Hreq. cbv zeta. unfold sys_read_argv.
  rewrite (unchecked_get_int_of_int argv1 request indeterminate Hget).
  nif_unfold.
  tests;
    try rewrite Z.min_l by lia; try rewrite Z.min_r by lia;
    rewrite ?to_size_t_in_range by lia;
    repeat match goal with
           | Hc : context [to_size_t ?z] |- _ =>
               rewrite (to_size_t_in_range z) in Hc by lia
           end;
    repeat rewrite <- app_assoc; cbn [app];
    (split;
     [intros [Heq | Heq]; try lia; reflexivity
     |split;
      [intros Hpos Hne; try lia;
       (split; [reflexivity | split; intros; (reflexivity || lia)])
      |intros Hbig Hres; try lia; reflexivity]]).
Qed.

(** On the fresh handle, with a host whose [read] delivers 2 bytes: a
    request for 2 is met and registers nothing, a request for 10 is
    partly met and registers. *)
Lemma buffered_read_partial_and_full_example :
  run_nif (sys_read_argv (enif_make_int 2) 0) (scripted delivers_2)
          fresh_world
  = (Returned (make_ok (enif_make_binary [x68; x65])),
     mkWorld fresh_ctx 0 false [call_read 8 2 2]) /\
  trace (snd (run_nif (sys_read_argv (enif_make_int 10) 0)
                      (scripted delivers_2) fresh_world))
  = [call_read 8 10 10; call_enif_select 8 ERL_NIF_SELECT_READ 100].
Proof.
  assert (Hopen : cmd_output_fd (ctx fresh_world) <> PIPE_CLOSED)
    by (unfold PIPE_CLOSED; cbn; lia).
  assert (H2 : 1 <= 2) by lia.
  assert (H10 : 1 <= 10) by lia.
  destruct (buffered_read_partial_and_full (scripted delivers_2) fresh_world
              (enif_make_int 2) 2 0 eq_refl Hopen H2) as (Hfull & _).
  destruct (buffered_read_partial_and_full (scripted delivers_2) fresh_world
              (enif_make_int 10) 10 0 eq_refl Hopen H10) as (_ & Hpartial & _).
  split.
  - exact (Hfull (or_introl eq_refl)).
  - assert (Hpos : 0 < 2) by lia.
    assert (Hne : 2 <> 10) by lia.
    exact (proj1 (Hpartial Hpos Hne)).
Defined.

(** A [write] that accepts no byte of a non-empty binary is handled as a
    partial write, not as "try again": write readiness is asked for and
    the call returns [{ok, 0}] ([{error, Retval}] if [enif_select] did
    not return 0). *)
Theorem write_accepting_nothing_is_partial `{Posix}
    (h : Host) (w : World) (bin : list byte) :
  cmd_input_fd (ctx w) <> PIPE_CLOSED ->
  bin <> [] ->
  let wr := call_write (cmd_input_fd (ctx w)) bin (size bin) in
  let sel := call_enif_select (cmd_input_fd (ctx w)) ERL_NIF_SELECT_WRITE
                              (write_resource (ctx w)) in
  let retval := rv (h (trace w ++ [wr]) sel) in
  let after := run_nif (sys_write (enif_make_binary bin)) h w in
  rv (h (trace w) wr) = 0 ->
  trace (snd after) = trace w ++ [wr; sel] /\
  (retval = 0 -> fst after = Returned (make_ok (enif_make_int 0))) /\
  (retval <> 0 -> fst after = Returned (make_error (enif_make_int retval))).
Proof.
  intros Hopen Hbin wr sel retval after Hzero.
  pose proof (size_pos bin Hbin) as Hsz.
  subst wr sel retval after. nif_unfold. cbn [enif_inspect_binary].
  test_false. rewrite (proj2 (Z.eqb_neq (size bin) 0)) by lia.
  simpl_world. rewrite Hzero.
  tests; repeat rewrite <- app_assoc; cbn [app];
    (split; [reflexivity | split; intros; (reflexivity || lia)]).
Qed.

(** On the fresh handle, with a host whose [write] returns 0. *)
Lemma write_accepting_nothing_example :
  fst (run_nif (sys_write (enif_make_binary hello)) (scripted accepts_0)
               fresh_world)
  = Returned (make_ok (enif_make_int 0)) /\
  trace (snd (run_nif (sys_write (enif_make_binary hello)) (scripted accepts_0)
                      fresh_world))
  = [call_write 7 hello 5; call_enif_select 7 ERL_NIF_SELECT_WRITE 101].
Proof.
  assert (Hopen : cmd_input_fd (ctx fresh_world) <> PIPE_CLOSED)
    by (unfold PIPE_CLOSED; cbn; lia).
  assert (Hbin : hello <> []) by discriminate.
  destruct (write_accepting_nothing_is_partial (scripted accepts_0) fresh_world
              hello Hopen Hbin eq_refl) as (Htrace & Hterm & _).
  split; [exact (Hterm eq_refl) | exact Htrace].
Defined.

(** ** Arguments of the wrong kind *)

(** [sys_write] given a term that is not a binary (on an open input
    direction) raises [badarg].  So does [sys_close] given a direction
    that [enif_get_int] converts (an integer that fits a C [int]) to a
    value other than 0 and 1, and given any other term when the variable
    [kind], which is then left as it was, holds a value other than 0 and
    1.  Neither calls the host or changes the handle. *)
Theorem wrong_arguments_raise_badarg `{Posix}
    (h : Host) (w : World) (argv1 : ERL_NIF_TERM) (kind indeterminate : Z) :
  (cmd_input_fd (ctx w) <> PIPE_CLOSED ->
   enif_inspect_binary argv1 = None ->
   run_nif (sys_write argv1) h w
   = (RaisedBadarg, mkWorld (ctx w) (errno w) true (trace w))) /\
  (enif_get_int argv1 = Some kind -> kind <> 0 -> kind <> 1 ->
   run_nif (sys_close_argv argv1 indeterminate) h w
   = (RaisedBadarg, mkWorld (ctx w) (errno w) true (trace w))) /\
  (enif_get_int argv1 = None ->
   to_int indeterminate <> 0 -> to_int indeterminate <> 1 ->
   run_nif (sys_close_argv argv1 indeterminate) h w
   = (RaisedBadarg, mkWorld (ctx w) (errno w) true (trace w))).
Proof.
  split; [| split].
  - intros Hopen Hterm. nif_unfold. test_false. now rewrite Hterm.
  - intros Hget H0 H1. unfold sys_close_argv.
    rewrite (unchecked_get_int_of_int argv1 kind indeterminate Hget).
    nif_unfold. now do 2 test_false.
  - intros Hget H0 H1. unfold sys_close_argv, unchecked_get_int.
    rewrite Hget. nif_unfold. now do 2 test_false.
Qed.

(** On the fresh handle: an integer instead of a binary, direction 2, and
    an atom as the direction while [kind] holds 2. *)
Lemma wrong_arguments_raise_badarg_example :
  fst (run_nif (sys_write (enif_make_int 5)) (scripted quiet) fresh_world)
  = RaisedBadarg /\
  fst (run_nif (sys_close_argv (enif_make_int 2) 0) (scripted quiet)
               fresh_world) = RaisedBadarg /\
  fst (run_nif (sys_close_argv ATOM_OK 2) (scripted quiet) fresh_world)
  = RaisedBadarg.
Proof.
  destruct (wrong_arguments_raise_badarg (scripted quiet) fresh_world
              (enif_make_int 5) 5 0) as (Hwrite & _ & _).
  destruct (wrong_arguments_raise_badarg (scripted quiet) fresh_world
              (enif_make_int 2) 2 0) as (_ & Hclose & _).
  destruct (wrong_arguments_raise_badarg (scripted quiet) fresh_world
              ATOM_OK 0 2) as (_ & _ & Hatom).
  split; [| split].
  - rewrite Hwrite; [reflexivity | unfold PIPE_CLOSED; cbn; lia | reflexivity].
  - rewrite Hclose; [reflexivity | reflexivity | lia | lia].
  - rewrite Hatom; [reflexivity | reflexivity | cbn; lia | cbn; lia].
Defined.

(** When the direction is not converted and the variable [kind] holds 0,
    [sys_close] closes the input direction and returns [ok]: the wrong
    argument is not noticed. *)
Lemma sys_close_of_unconverted_direction :
  run_nif (sys_close_argv ATOM_OK 0) (scripted quiet) fresh_world
  = (Returned ATOM_OK,
     mkWorld (set_cmd_input_fd PIPE_CLOSED fresh_ctx) 0 false
             [call_enif_select 7 ERL_NIF_SELECT_STOP 101; call_close 7]).
Proof. reflexivity. Qed.

(** ** Scheduler accounting *)

(** For a call that did not run backwards in time,
    [notify_consumed_timeslice] reports a percentage between 1 and 100,
    the range [enif_consume_timeslice] accepts: 1 for less than 20
    microseconds, one percent per 10 microseconds after that, 100 from
    1010 microseconds on. *)
Theorem consumed_timeslice_is_a_percentage (start stop : Z) :
  start <= stop ->
  1 <= notify_consumed_timeslice start stop <= 100 /\
  (stop - start < 20 -> notify_consumed_timeslice start stop = 1) /\
  (20 <= stop - start < 1010 ->
   notify_consumed_timeslice start stop = (stop - start) / 10) /\
  (1010 <= stop - start -> notify_consumed_timeslice start stop = 100).
Proof.
  intros Horder. unfold notify_consumed_timeslice.
  rewrite Z.quot_div_nonneg by lia.
  assert (Hdiv : 0 <= (stop - start) / 10) by (apply Z.div_pos; lia).
  destruct (Z.gtb_spec ((stop - start) / 10) 100) as [Hbig | Hsmall].
  - rewrite to_int_in_range by (unfold INT_MIN, INT_MAX; lia).
    repeat split; try lia.
    + intros Hlt. assert ((stop - start) / 10 <= 1)
        by (apply Z.lt_succ_r, Z.div_lt_upper_bound; lia). lia.
    + intros [_ Hlt]. assert ((stop - start) / 10 < 101)
        by (apply Z.div_lt_upper_bound; lia). lia.
  - destruct (Z.eqb_spec ((stop - start) / 10) 0) as [Hzero | Hpos].
    + rewrite to_int_in_range by (unfold INT_MIN, INT_MAX; lia).
      repeat split; try lia.
      * intros [Hge _]. assert (2 <= (stop - start) / 10)
          by (apply Z.div_le_lower_bound; lia). lia.
      * intros Hge. assert (101 <= (stop - start) / 10)
          by (apply Z.div_le_lower_bound; lia). lia.
    + rewrite to_int_in_range by (unfold INT_MIN, INT_MAX; lia).
      repeat split; try lia.
      * intros Hlt. assert ((stop - start) / 10 < 2)
          by (apply Z.div_lt_upper_bound; lia). lia.
      * intros Hge. assert (101 <= (stop - start) / 10)
          by (apply Z.div_le_lower_bound; lia). lia.
Qed.

(** A call of 250 microseconds costs 25 percent; one of 5 seconds, 100. *)
Lemma consumed_timeslice_example :
  notify_consumed_timeslice 1000 1250 = 25 /\
  1 <= notify_consumed_timeslice 0 5000000 <= 100.
Proof.
  split; [reflexivity |].
  apply (consumed_timeslice_is_a_percentage 0 5000000). lia.
Defined.

(** * Properties of [start_process] *)

Ltac proc_unfold :=
  unfold proc_bind, proc_ret, ksys, proc_errno, _exit;
  cbn [fst snd p_errno p_trace].

(** ** Closing descriptors *)

Lemma close_all_spec `{Fcntl}
    (pipes : Pipes) (kern : Kernel) (s : ProcState) :
  fst (close_all pipes kern s) = GoesOn tt /\
  p_trace (snd (close_all pipes kern s))
  = p_trace s ++ map ksys_close (filter (fun fd => fd >? 0) (pipe_fds pipes)).
Proof.
  unfold close_all, close_if_positive, pipe_fds.
  generalize (pipes_at pipes 0 PIPE_READ) (pipes_at pipes 0 PIPE_WRITE)
             (pipes_at pipes 1 PIPE_READ) (pipes_at pipes 1 PIPE_WRITE).
  intros a b c d. cbn [filter].
  destruct (a >? 0); destruct (b >? 0); destruct (c >? 0); destruct (d >? 0);
    proc_unfold; cbn [map]; repeat rewrite <- app_assoc; cbn [app];
    rewrite ?app_nil_r; auto.
Qed.

(** [close_all] closes the elements of [pipes] that are greater than 0,
    once each, in the order of the array, and makes no other call: an
    element that is 0 (never filled in by [pipe], or standard input) or
    negative is left alone. *)
Theorem close_all_closes_the_positive_descriptors `{Fcntl}
    (pipes : Pipes) (kern : Kernel) (s : ProcState) :
  fst (close_all pipes kern s) = GoesOn tt /\
  p_trace (snd (close_all pipes kern s))
  = p_trace s ++ map ksys_close (filter (fun fd => fd >? 0) (pipe_fds pipes)).
Proof. exact (close_all_spec pipes kern s). Qed.

(** The error exit: the result carries [errno] as it was on entry, and
    the calls made are those of [close_all]. *)
Lemma setup_failed_spec `{Fcntl} (pipes : Pipes) (kern : Kernel)
    (s : ProcState) :
  exists e,
    setup_failed pipes kern s
    = (GoesOn (mkStartProcessResult false (p_errno s) zero_context),
       mkProcState e
         (p_trace s
          ++ map ksys_close (filter (fun fd => fd >? 0) (pipe_fds pipes)))).
Proof.
  unfold setup_failed. proc_unfold.
  destruct (close_all_spec pipes kern s) as [Hend Htrace].
  destruct (close_all pipes kern s) as [ending [e t]].
  cbn [fst snd p_trace] in Hend, Htrace. subst ending t.
  exists e. reflexivity.
Qed.

Lemma close_from_spec (n : nat) :
  forall (first : Z) (kern : Kernel) (s : ProcState),
    fst (close_from n first kern s) = GoesOn tt /\
    p_trace (snd (close_from n first kern s))
    = p_trace s ++ map ksys_close (count_up n first).
Proof.
  induction n as [| n IH]; intros first kern s; cbn [close_from count_up map].
  - proc_unfold. now rewrite app_nil_r.
  - proc_unfold.
    destruct (IH (first + 1) kern
                 (mkProcState (kr_errno (kern (p_trace s) (ksys_close first)))
                              (p_trace s ++ [ksys_close first])))
      as [Hend Htrace].
    split; [exact Hend |].
    rewrite Htrace. cbn [p_trace]. now rewrite <- app_assoc.
Qed.

Lemma in_count_up (n : nat) :
  forall first fd : Z,
    In fd (count_up n first) <-> first <= fd < first + Z.of_nat n.
Proof.
  induction n as [| n IH]; intros first fd; cbn [count_up In].
  - lia.
  - rewrite IH. lia.
Qed.

Lemma close_all_fds_spec (kern : Kernel) (s : ProcState) :
  fst (close_all_fds kern s) = GoesOn tt /\
  p_trace (snd (close_all_fds kern s))
  = p_trace s
    ++ ksys_open_max
       :: map ksys_close
            (count_up (Z.to_nat (to_int (kr_val (kern (p_trace s) ksys_open_max))
                                 - 3)) 3).
Proof.
  unfold close_all_fds. proc_unfold.
  unfold STDERR_FILENO. cbn [Z.add Pos.add].
  match goal with
  | |- context [close_from ?n 3 kern ?s'] =>
      destruct (close_from_spec n 3 kern s') as [Hend Htrace]
  end.
  split; [exact Hend |].
  rewrite Htrace. cbn [p_trace]. rewrite <- app_assoc. reflexivity.
Qed.

(** [close_all_fds] asks for the descriptor limit and then closes every
    descriptor from 3 up to the limit (as an [int]) minus one, in
    increasing order, once each: never 0, 1 or 2, and nothing at all when
    the limit is 3 or less, as when [sysconf] fails with -1. *)
Theorem close_all_fds_sweeps_above_stderr
    (kern : Kernel) (s : ProcState) :
  let fd_limit := to_int (kr_val (kern (p_trace s) ksys_open_max)) in
  let swept := count_up (Z.to_nat (fd_limit - 3)) 3 in
  fst (close_all_fds kern s) = GoesOn tt /\
  p_trace (snd (close_all_fds kern s))
  = p_trace s ++ ksys_open_max :: map ksys_close swept /\
  (forall fd, In fd swept <-> 3 <= fd < fd_limit) /\
  (fd_limit <= 3 -> swept = []).
Proof.
  intros fd_limit swept.
  destruct (close_all_fds_spec kern s) as [Hend Htrace].
  split; [exact Hend | split; [exact Htrace | split]].
  - intros fd. unfold swept. rewrite in_count_up. lia.
  - intros Hsmall. unfold swept.
    replace (Z.to_nat (fd_limit - 3)) with 0%nat by lia. reflexivity.
Qed.

(** ** The child *)

(** Replaces a call of [close_all_fds] by what it does. *)
Ltac resolve_sweep :=
  match goal with
  | |- context [close_all_fds ?kern ?s'] =>
      let Hend := fresh "Hend" in
      let Htrace := fresh "Htrace" in
      let ending := fresh "ending" in
      let e := fresh "e" in
      let t := fresh "t" in
      destruct (close_all_fds_spec kern s') as [Hend Htrace];
      destruct (close_all_fds kern s') as [ending [e t]];
      cbn [fst snd p_trace] in Hend, Htrace; subst ending t
  end.

Ltac proc_step :=
  first
    [ resolve_sweep
    | match goal with
      | |- context [(?a =? ?b)%string] => destruct (String.eqb_spec a b)
      | |- context [?a =? ?b] => destruct (Z.eqb_spec a b)
      | |- context [?a <? ?b] => destruct (Z.ltb_spec a b)
      | |- context [if negb ?b then _ else _] => destruct b
      | |- context [if ?b then _ else _] => destruct b
      end ];
  cbn [negb fst snd p_errno p_trace].

(** The child never comes back from [child_side]: it exits with
    [FORK_EXEC_FAILURE] or runs the program. *)
Lemma child_side_ending `{Fcntl}
    (args : list string) (stderr_to_console : bool) (dir : string)
    (exec_env : list string) (r_cmdin w_cmdout : Z)
    (kern : Kernel) (s : ProcState) :
  (fst (child_side args stderr_to_console dir exec_env r_cmdin w_cmdout kern s)
   = Exits FORK_EXEC_FAILURE \/
   fst (child_side args stderr_to_console dir exec_env r_cmdin w_cmdout kern s)
   = Execs (hd_error args) args exec_env) /\
  exists post,
    p_trace (snd (child_side args stderr_to_console dir exec_env
                             r_cmdin w_cmdout kern s))
    = p_trace s ++ post.
Proof.
  unfold child_side. proc_unfold.
  repeat proc_step;
    (split; [auto | eexists; repeat rewrite <- app_assoc; reflexivity]).
Qed.

Lemma child_side_never_goes_on `{Fcntl}
    (args : list string) (stderr_to_console : bool) (dir : string)
    (exec_env : list string) (r_cmdin w_cmdout : Z)
    (kern : Kernel) (s : ProcState) (result : StartProcessResult) :
  fst (child_side args stderr_to_console dir exec_env r_cmdin w_cmdout kern s)
  <> GoesOn result.
Proof.
  destruct (child_side_ending args stderr_to_console dir exec_env
                              r_cmdin w_cmdout kern s) as [[Hend | Hend] _];
    rewrite Hend; discriminate.
Qed.

(** The calls of a child that reaches a successful [execve]:
    [dev_null] is what [open] returned, [fd_limit] what [sysconf]
    returned, as an [int]. *)
Lemma child_side_exec_trace `{Fcntl}
    (args : list string) (stderr_to_console : bool) (dir : string)
    (exec_env : list string) (r_cmdin w_cmdout : Z)
    (kern : Kernel) (s : ProcState) (path : option string)
    (argv envp : list string) :
  fst (child_side args stderr_to_console dir exec_env r_cmdin w_cmdout kern s)
  = Execs path argv envp ->
  let head := p_trace s ++ wiring_head dir r_cmdin w_cmdout in
  let dev_null := kr_val (kern (head ++ [ksys_close STDERR_FILENO])
                               (ksys_open "/dev/null" O_WRONLY)) in
  let fd_limit :=
    to_int (kr_val (kern (head ++ stderr_calls stderr_to_console dev_null)
                         ksys_open_max)) in
  p_trace (snd (child_side args stderr_to_console dir exec_env
                           r_cmdin w_cmdout kern s))
  = p_trace s
    ++ wiring_calls args stderr_to_console dir exec_env r_cmdin w_cmdout
                    dev_null (count_up (Z.to_nat (fd_limit - 3)) 3) /\
  (stderr_to_console = false -> dev_null <> -1).
Proof.
  cbv zeta.
  unfold child_side, wiring_calls, wiring_head, stderr_calls. proc_unfold.
  repeat proc_step; intros Hexec; try discriminate;
    repeat rewrite <- app_assoc in *; cbn [app] in *;
    (split;
     [reflexivity
     |first [intros Hf; discriminate Hf | intros _; assumption]]).
Qed.

(** ** The whole of [start_process] *)

(** Flags written with [O_NONBLOCK] added have every bit of it. *)
Lemma nonblock_is_added `{Fcntl} (old : Z) :
  Z.land (Z.lor old (Z.lor O_CLOEXEC O_NONBLOCK)) O_NONBLOCK = O_NONBLOCK.
Proof.
  apply Z.bits_inj'. intros i _.
  rewrite Z.land_spec, !Z.lor_spec.
  destruct (Z.testbit O_NONBLOCK i); [| apply andb_false_r].
  now rewrite !orb_true_r.
Qed.

(** The three ways through [start_process]: a set-up step fails, or
    [fork] returns 0 and the child goes on in [child_side], or [fork]
    returns a pid to the parent. *)
Lemma start_process_cases `{Fcntl}
    (args : list string) (stderr_to_console : bool) (dir : string)
    (exec_env : list string) (kern : Kernel) (s : ProcState) :
  let p0 := kern (p_trace s) (ksys_pipe STDIN_FILENO) in
  let p1 := kern (p_trace s ++ [ksys_pipe STDIN_FILENO])
                 (ksys_pipe STDOUT_FILENO) in
  let pipes : Pipes :=
    (kr_fds p0, if kr_val p0 =? -1 then (0, 0) else kr_fds p1) in
  let r_cmdin := fst (kr_fds p0) in
  let w_cmdin := snd (kr_fds p0) in
  let r_cmdout := fst (kr_fds p1) in
  let w_cmdout := snd (kr_fds p1) in
  let run := start_process args stderr_to_console dir exec_env kern s in
  (exists pre failing e,
     run = (GoesOn (mkStartProcessResult
                      false (kr_errno (kern (p_trace s ++ pre) failing))
                      zero_context),
            mkProcState e
              (p_trace s ++ pre ++ [failing]
               ++ map ksys_close
                    (filter (fun fd => fd >? 0) (pipe_fds pipes)))) /\
     kr_val (kern (p_trace s ++ pre) failing) < 0 /\
     existsb is_close (pre ++ [failing]) = false /\
     existsb is_fork pre = false /\
     existsb is_child_call (pre ++ [failing]) = false) \/
  (let '(g0, g1, g2, g3) :=
     getfl_replies kern (p_trace s) r_cmdin w_cmdin r_cmdout w_cmdout in
   let pre := setup_calls r_cmdin w_cmdin r_cmdout w_cmdout g0 g1 g2 g3 in
   let forked := kern (p_trace s ++ pre) ksys_fork in
   kr_val forked <> -1 /\
     (kr_val forked = 0 /\
      run = child_side args stderr_to_console dir exec_env r_cmdin w_cmdout
                       kern
                       (mkProcState (kr_errno forked)
                                    (p_trace s ++ pre ++ [ksys_fork]))
      \/
      kr_val forked <> 0 /\
      exists e,
        run = (GoesOn (mkStartProcessResult
                         true 0
                         (set_cmd_output_fd r_cmdout
                            (set_cmd_input_fd w_cmdin
                               (set_pid (kr_val forked) zero_context)))),
               mkProcState e
                 (p_trace s ++ pre
                  ++ [ksys_fork; ksys_close r_cmdin; ksys_close w_cmdout])))).
Proof.
  unfold getfl_replies. cbv beta iota zeta.
  unfold start_process, set_flag, setup_calls. proc_unfold.
  unfold pipes_at, STDIN_FILENO, STDOUT_FILENO, PIPE_READ, PIPE_WRITE.
  cbn [Z.eqb Pos.eqb fst snd].
  repeat (match goal with
          | |- context [?a =? ?b] => destruct (Z.eqb_spec a b)
          | |- context [?a <? ?b] => destruct (Z.ltb_spec a b)
          end; cbn [fst snd p_errno p_trace]);
    try (match goal with
         | |- context [setup_failed ?p ?k ?st] =>
             let e := fresh "e" in
             let He := fresh "He" in
             destruct (setup_failed_spec p k st) as [e He]; rewrite He
         end; cbn [p_errno p_trace]);
    repeat rewrite <- app_assoc in *; cbn [app] in *;
    first
      [ left;
        first
          [ exists []; do 2 eexists; rewrite app_nil_r;
            split; [cbn [app]; reflexivity |]
          | eexists [_]; do 2 eexists; split; [cbn [app]; reflexivity |]
          | eexists [_; _; _]; do 2 eexists; split; [cbn [app]; reflexivity |]
          | eexists [_; _; _; _; _]; do 2 eexists;
            split; [cbn [app]; reflexivity |]
          | eexists [_; _; _; _; _; _; _]; do 2 eexists;
            split; [cbn [app]; reflexivity |]
          | eexists [_; _; _; _; _; _; _; _; _]; do 2 eexists;
            split; [cbn [app]; reflexivity |]
          | eexists [_; _; _; _; _; _; _; _; _; _]; do 2 eexists;
            split; [cbn [app]; reflexivity |] ];
        cbn [app existsb is_close is_fork is_child_call orb];
        repeat split; lia
      | right;
        (split; [| left; split; [| reflexivity]]); assumption
      | right;
        (split; [| right; split; [| eexists; reflexivity]]); assumption ].
Qed.

(** Brings the three cases of [start_process_cases] into the context. *)
Ltac start_cases args stderr_to_console dir exec_env kern s H :=
  pose proof (start_process_cases args stderr_to_console dir exec_env kern s)
    as H;
  unfold getfl_replies in H |- *; cbv beta iota zeta in H |- *.

(** [set_flag] reads the status flags and writes them back with [flags]
    added: the argument of [F_SETFL] has exactly the bits of the value
    [F_GETFL] returned and those of [flags], and [set_flag] returns what
    [F_SETFL] returned.  The value of [F_GETFL] is not checked: when it is
    -1 (failure), [F_SETFL] is still called, with every bit set. *)
Theorem set_flag_adds_flags_without_checking_getfl
    (fd flags : Z) (kern : Kernel) (s : ProcState) :
  let old := kern (p_trace s) (ksys_getfl fd) in
  let arg := Z.lor (kr_val old) flags in
  let r := kern (p_trace s ++ [ksys_getfl fd]) (ksys_setfl fd arg) in
  set_flag fd flags kern s
  = (GoesOn (kr_val r),
     mkProcState (kr_errno r)
                 (p_trace s ++ [ksys_getfl fd; ksys_setfl fd arg])) /\
  (forall i, Z.testbit arg i = Z.testbit (kr_val old) i || Z.testbit flags i) /\
  (kr_val old = -1 -> arg = -1).
Proof.
  cbv zeta. split; [| split].
  - unfold set_flag. proc_unfold. now rewrite <- app_assoc.
  - intros i. apply Z.lor_spec.
  - intros ->. apply Z.lor_m1_l.
Qed.

(** When [start_process] returns a failure to its caller, the last call
    before the clean-up ([failing]) returned a negative value and [err]
    is the [errno] it left; no [fork] had succeeded, nothing but [pipe]
    and [fcntl] (and the failed [fork]) had been called, and the calls
    that follow are exactly the [close] of every descriptor greater than
    0 that [pipe] had stored, so that no pipe is left open.  No context
    is filled in. *)
Theorem start_process_failure_releases_the_pipes `{Fcntl}
    (args : list string) (stderr_to_console : bool) (dir : string)
    (exec_env : list string) (kern : Kernel) (s : ProcState)
    (result : StartProcessResult) :
  fst (start_process args stderr_to_console dir exec_env kern s)
  = GoesOn result ->
  success result = false ->
  let p0 := kern (p_trace s) (ksys_pipe STDIN_FILENO) in
  let p1 := kern (p_trace s ++ [ksys_pipe STDIN_FILENO])
                 (ksys_pipe STDOUT_FILENO) in
  let pipes : Pipes :=
    (kr_fds p0, if kr_val p0 =? -1 then (0, 0) else kr_fds p1) in
  exists pre failing,
    p_trace (snd (start_process args stderr_to_console dir exec_env kern s))
    = p_trace s ++ pre ++ [failing]
      ++ map ksys_close (filter (fun fd => fd >? 0) (pipe_fds pipes)) /\
    kr_val (kern (p_trace s ++ pre) failing) < 0 /\
    err result = kr_errno (kern (p_trace s ++ pre) failing) /\
    context result = zero_context /\
    existsb is_close (pre ++ [failing]) = false /\
    existsb is_fork pre = false /\
    existsb is_child_call (pre ++ [failing]) = false.
Proof.
  intros Hrun Hfail.
  start_cases args stderr_to_console dir exec_env kern s Hcases.
  destruct Hcases
    as [(pre & failing & e & Heq & Hneg & Hc & Hf & Hch)
       |(_ & [[_ Heq] | [_ [e Heq]]])];
    rewrite Heq in Hrun |- *.
  - cbn [fst snd p_trace] in *. injection Hrun as <-.
    exists pre, failing. cbn [err context]. auto 10.
  - exfalso. exact (child_side_never_goes_on _ _ _ _ _ _ _ _ _ Hrun).
  - cbn [fst] in Hrun. injection Hrun as <-. discriminate Hfail.
Qed.

(** On the kernel whose [fork] fails with [EAGAIN]: the error is 11 and
    the four descriptors 10 to 13 are closed again. *)
Lemma start_process_failure_example :
  fst (start_process ["/bin/cat"%string] true ""%string [] kernel_fork_fails
                     proc_start)
  = GoesOn (mkStartProcessResult false 11 zero_context) /\
  exists pre failing,
    p_trace (snd (start_process ["/bin/cat"%string] true ""%string []
                                kernel_fork_fails proc_start))
    = pre ++ [failing] ++ map ksys_close [10; 11; 12; 13].
Proof.
  assert (Hrun : fst (start_process ["/bin/cat"%string] true ""%string []
                                    kernel_fork_fails proc_start)
                 = GoesOn (mkStartProcessResult false 11 zero_context))
    by (vm_compute; reflexivity).
  destruct (start_process_failure_releases_the_pipes
              ["/bin/cat"%string] true ""%string [] kernel_fork_fails
              proc_start (mkStartProcessResult false 11 zero_context)
              Hrun eq_refl)
    as (pre & failing & Htrace & _).
  split; [exact Hrun |].
  exists pre, failing. exact Htrace.
Defined.

(** When [start_process] returns a success, it is in the parent: [fork]
    returned a pid that is neither 0 nor -1, and that pid is in the
    context.  The calls made are the two [pipe], [F_GETFL] and [F_SETFL]
    on the four ends, [fork], and the [close] of the two ends that belong
    to the child.  Each [F_SETFL] writes the flags the [F_GETFL] before it
    returned ([g0] ... [g3], the replies of the kernel) with [O_CLOEXEC]
    added, and with [O_NONBLOCK] added on the two ends the parent keeps
    and on those only: on the ends of the child the [O_NONBLOCK] bits
    written are the ones read.  The context holds the write end of the
    first pipe as [cmd_input_fd] and the read end of the second as
    [cmd_output_fd]. *)
Theorem start_process_parent_keeps_its_two_ends `{Fcntl}
    (args : list string) (stderr_to_console : bool) (dir : string)
    (exec_env : list string) (kern : Kernel) (s : ProcState)
    (result : StartProcessResult) :
  fst (start_process args stderr_to_console dir exec_env kern s)
  = GoesOn result ->
  success result = true ->
  let p0 := kern (p_trace s) (ksys_pipe STDIN_FILENO) in
  let p1 := kern (p_trace s ++ [ksys_pipe STDIN_FILENO])
                 (ksys_pipe STDOUT_FILENO) in
  let r_cmdin := fst (kr_fds p0) in
  let w_cmdin := snd (kr_fds p0) in
  let r_cmdout := fst (kr_fds p1) in
  let w_cmdout := snd (kr_fds p1) in
  let '(g0, g1, g2, g3) :=
    getfl_replies kern (p_trace s) r_cmdin w_cmdin r_cmdout w_cmdout in
  let pre := setup_calls r_cmdin w_cmdin r_cmdout w_cmdout g0 g1 g2 g3 in
  p_trace (snd (start_process args stderr_to_console dir exec_env kern s))
  = p_trace s ++ pre
    ++ [ksys_fork; ksys_close r_cmdin; ksys_close w_cmdout] /\
  pid (context result) = kr_val (kern (p_trace s ++ pre) ksys_fork) /\
  pid (context result) <> 0 /\
  pid (context result) <> -1 /\
  cmd_input_fd (context result) = w_cmdin /\
  cmd_output_fd (context result) = r_cmdout /\
  err result = 0 /\
  (Z.land O_CLOEXEC O_NONBLOCK = 0 ->
   Z.land (Z.lor g0 O_CLOEXEC) O_NONBLOCK = Z.land g0 O_NONBLOCK /\
   Z.land (Z.lor g1 O_CLOEXEC) O_NONBLOCK = Z.land g1 O_NONBLOCK) /\
  Z.land (Z.lor g2 (Z.lor O_CLOEXEC O_NONBLOCK)) O_NONBLOCK = O_NONBLOCK /\
  Z.land (Z.lor g3 (Z.lor O_CLOEXEC O_NONBLOCK)) O_NONBLOCK = O_NONBLOCK.
Proof.
  intros Hrun Hok. cbv zeta.
  start_cases args stderr_to_console dir exec_env kern s Hcases.
  destruct Hcases
    as [(pre & failing & e & Heq & _)
       |(Hne1 & [[_ Heq] | [Hne0 [e Heq]]])];
    rewrite Heq in Hrun |- *.
  - cbn [fst] in Hrun. injection Hrun as <-. discriminate Hok.
  - exfalso. exact (child_side_never_goes_on _ _ _ _ _ _ _ _ _ Hrun).
  - cbn [fst snd p_trace] in *. injection Hrun as <-.
    cbn [context err pid cmd_input_fd cmd_output_fd set_pid set_cmd_input_fd
         set_cmd_output_fd zero_context].
    repeat (split; [first [reflexivity | assumption] |]).
    split; [| split].
    + intros Hdisjoint.
      rewrite !Z.land_lor_distr_l, Hdisjoint, !Z.lor_0_r. auto.
    + apply nonblock_is_added.
    + apply nonblock_is_added.
Qed.

(** On the kernel on which everything works, in the parent of child
    4242: the handle gets descriptors 11 and 12, and the flags written
    are [O_CLOEXEC] on 10 and 13, [O_CLOEXEC] and [O_NONBLOCK] on 11 and
    12. *)
Lemma start_process_parent_example :
  fst (start_process ["/bin/cat"%string] true ""%string [] (kernel_ok 4242)
                     proc_start)
  = GoesOn (mkStartProcessResult true 0 (mkExecContext 11 12 0 0 4242 0 0)) /\
  p_trace (snd (start_process ["/bin/cat"%string] true ""%string []
                              (kernel_ok 4242) proc_start))
  = [ksys_pipe 0; ksys_pipe 1;
     ksys_getfl 10; ksys_setfl 10 524288;
     ksys_getfl 13; ksys_setfl 13 524288;
     ksys_getfl 11; ksys_setfl 11 526336;
     ksys_getfl 12; ksys_setfl 12 526336;
     ksys_fork; ksys_close 10; ksys_close 13].
Proof.
  assert (Hrun : fst (start_process ["/bin/cat"%string] true ""%string []
                                    (kernel_ok 4242) proc_start)
                 = GoesOn (mkStartProcessResult
                             true 0 (mkExecContext 11 12 0 0 4242 0 0)))
    by (vm_compute; reflexivity).
  pose proof (start_process_parent_keeps_its_two_ends
                ["/bin/cat"%string] true ""%string [] (kernel_ok 4242)
                proc_start
                (mkStartProcessResult true 0 (mkExecContext 11 12 0 0 4242 0 0))
                Hrun eq_refl) as Hparent.
  split; [exact Hrun | exact (proj1 Hparent)].
Defined.

(** [start_process] ends the process it runs in only in the child: if it
    exits or replaces the process image, then [fork] had been called,
    after the pipes were set up, and had returned 0.  The only exit code
    is [FORK_EXEC_FAILURE] (125), and the program run is [args[0]] with
    the arguments and the environment given. *)
Theorem start_process_leaves_only_in_the_child `{Fcntl}
    (args : list string) (stderr_to_console : bool) (dir : string)
    (exec_env : list string) (kern : Kernel) (s : ProcState) :
  let p0 := kern (p_trace s) (ksys_pipe STDIN_FILENO) in
  let p1 := kern (p_trace s ++ [ksys_pipe STDIN_FILENO])
                 (ksys_pipe STDOUT_FILENO) in
  let run := start_process args stderr_to_console dir exec_env kern s in
  let in_child :=
    exists g0 g1 g2 g3 post,
      let pre := setup_calls (fst (kr_fds p0)) (snd (kr_fds p0))
                             (fst (kr_fds p1)) (snd (kr_fds p1))
                             g0 g1 g2 g3 in
      p_trace (snd run) = p_trace s ++ pre ++ ksys_fork :: post /\
      kr_val (kern (p_trace s ++ pre) ksys_fork) = 0 in
  match fst run with
  | GoesOn _ => True
  | Exits code => code = FORK_EXEC_FAILURE /\ in_child
  | Execs path argv envp =>
      path = hd_error args /\ argv = args /\ envp = exec_env /\ in_child
  end.
Proof.
  cbv zeta.
  start_cases args stderr_to_console dir exec_env kern s Hcases.
  destruct Hcases
    as [(pre & failing & e & Heq & _)
       |(Hne1 & [[Hzero Heq] | [Hne0 [e Heq]]])];
    rewrite Heq.
  - exact I.
  - match goal with
    | |- context [child_side ?a ?b ?c ?d ?r ?w ?k ?st] =>
        destruct (child_side_ending a b c d r w k st)
          as [[Hend | Hend] [post Hpost]]
    end; rewrite Hend; rewrite Hpost; cbn [p_trace];
      repeat split;
      match type of Hzero with
      | kr_val (kern (_ ++ setup_calls _ _ _ _ ?g0 ?g1 ?g2 ?g3) _) = 0 =>
          exists g0, g1, g2, g3, post
      end;
      (split; [repeat rewrite <- app_assoc; reflexivity | exact Hzero]).
  - exact I.
Qed.

(** A child that gets to run the program has made, after [fork], these
    calls and no other, in this order: [chdir] if [dir] is not empty;
    [close] of 0 and 1; [dup2] of the read end of the first pipe onto 0
    and of the write end of the second onto 1; unless standard error is
    kept, [close] of 2, [open] of [/dev/null] for writing, [dup2] of the
    descriptor [open] returned ([dev_null], not -1) onto 2 and [close] of
    it; [sysconf]; [close] of every descriptor from 3 to the limit
    [sysconf] returned ([fd_limit], as an [int]) minus one; [execve].
    So the program starts with descriptors 0, 1 and 2 only. *)
Theorem child_is_wired_before_exec `{Fcntl}
    (args : list string) (stderr_to_console : bool) (dir : string)
    (exec_env : list string) (kern : Kernel) (s : ProcState)
    (path : option string) (argv envp : list string) :
  fst (start_process args stderr_to_console dir exec_env kern s)
  = Execs path argv envp ->
  let p0 := kern (p_trace s) (ksys_pipe STDIN_FILENO) in
  let p1 := kern (p_trace s ++ [ksys_pipe STDIN_FILENO])
                 (ksys_pipe STDOUT_FILENO) in
  let r_cmdin := fst (kr_fds p0) in
  let w_cmdin := snd (kr_fds p0) in
  let r_cmdout := fst (kr_fds p1) in
  let w_cmdout := snd (kr_fds p1) in
  let '(g0, g1, g2, g3) :=
    getfl_replies kern (p_trace s) r_cmdin w_cmdin r_cmdout w_cmdout in
  let pre := setup_calls r_cmdin w_cmdin r_cmdout w_cmdout g0 g1 g2 g3 in
  let head :=
    p_trace s ++ pre ++ ksys_fork :: wiring_head dir r_cmdin w_cmdout in
  let dev_null := kr_val (kern (head ++ [ksys_close STDERR_FILENO])
                               (ksys_open "/dev/null" O_WRONLY)) in
  let fd_limit :=
    to_int (kr_val (kern (head ++ stderr_calls stderr_to_console dev_null)
                         ksys_open_max)) in
  let swept := count_up (Z.to_nat (fd_limit - 3)) 3 in
  p_trace (snd (start_process args stderr_to_console dir exec_env kern s))
  = p_trace s ++ pre
    ++ ksys_fork
       :: wiring_calls args stderr_to_console dir exec_env r_cmdin w_cmdout
                       dev_null swept /\
  kr_val (kern (p_trace s ++ pre) ksys_fork) = 0 /\
  (stderr_to_console = false -> dev_null <> -1) /\
  (forall fd, In fd swept <-> 3 <= fd < fd_limit).
Proof.
  intros Hrun. cbv zeta.
  start_cases args stderr_to_console dir exec_env kern s Hcases.
  destruct Hcases
    as [(pre & failing & e & Heq & _)
       |(Hne1 & [[Hzero Heq] | [Hne0 [e Heq]]])];
    rewrite Heq in Hrun |- *.
  - discriminate Hrun.
  - destruct (child_side_exec_trace _ _ _ _ _ _ _ _ _ _ _ Hrun)
      as (Htrace & Hnull).
    cbn [p_trace] in Htrace, Hnull.
    repeat rewrite <- app_assoc in *. cbn [app] in *.
    split; [exact Htrace | split; [exact Hzero | split; [exact Hnull |]]].
    intros fd. rewrite in_count_up. lia.
  - discriminate Hrun.
Qed.

(** On the kernel on which everything works, in the child, with standard
    error sent to [/dev/null]: the program is run after [open] returned
    descriptor 14 and [sysconf] 16, so that descriptors 3 to 15 are
    closed. *)
Lemma child_is_wired_example :
  fst (start_process ["/bin/cat"%string] false "/tmp"%string [] (kernel_ok 0)
                     proc_start)
  = Execs (Some "/bin/cat"%string) ["/bin/cat"%string] [] /\
  p_trace (snd (start_process ["/bin/cat"%string] false "/tmp"%string []
                              (kernel_ok 0) proc_start))
  = setup_calls 10 11 12 13 0 0 0 0
    ++ ksys_fork
       :: wiring_calls ["/bin/cat"%string] false "/tmp"%string [] 10 13
                       14 [3; 4; 5; 6; 7; 8; 9; 10; 11; 12; 13; 14; 15].
Proof.
  assert (Hrun : fst (start_process ["/bin/cat"%string] false "/tmp"%string []
                                    (kernel_ok 0) proc_start)
                 = Execs (Some "/bin/cat"%string) ["/bin/cat"%string] [])
    by (vm_compute; reflexivity).
  pose proof (child_is_wired_before_exec
                ["/bin/cat"%string] false "/tmp"%string [] (kernel_ok 0)
                proc_start _ _ _ Hrun) as Hchild.
  split; [exact Hrun | exact (proj1 Hchild)].
Defined.

(** * Two more edges of the NIFs *)

(** A close whose [close] system call does not return 0 calls [perror]
    and returns [{error, Errno}] with [errno] as [perror] left it (the
    [errno] of [close] only if [perror] kept it).  The handle is as it
    was, the direction still open, and the calls made are the
    [enif_select] that stops the readiness subscription of that direction
    and the [close], in this order: the same close can be tried again. *)
Theorem failed_close_keeps_the_direction_open
    (h : Host) (w : World) :
  (cmd_input_fd (ctx w) <> PIPE_CLOSED ->
   let stop := call_enif_select (cmd_input_fd (ctx w)) ERL_NIF_SELECT_STOP
                                (write_resource (ctx w)) in
   let closed := h (trace w ++ [stop]) (call_close (cmd_input_fd (ctx w))) in
   let e := rv_errno (h (trace w ++ [stop; call_close (cmd_input_fd (ctx w))])
                        (call_perror "cmd_input_fd close()"
                                     (rv_errno closed))) in
   rv closed <> 0 ->
   run_nif (sys_close 0) h w
   = (Returned (make_error (enif_make_int e)),
      mkWorld (ctx w) e false
              (trace w ++ [stop; call_close (cmd_input_fd (ctx w))]))) /\
  (cmd_output_fd (ctx w) <> PIPE_CLOSED ->
   let stop := call_enif_select (cmd_output_fd (ctx w)) ERL_NIF_SELECT_STOP
                                (read_resource (ctx w)) in
   let closed := h (trace w ++ [stop]) (call_close (cmd_output_fd (ctx w))) in
   let e := rv_errno (h (trace w ++ [stop; call_close (cmd_output_fd (ctx w))])
                        (call_perror "cmd_output_fd close()"
                                     (rv_errno closed))) in
   rv closed <> 0 ->
   run_nif (sys_close 1) h w
   = (Returned (make_error (enif_make_int e)),
      mkWorld (ctx w) e false
              (trace w ++ [stop; call_close (cmd_output_fd (ctx w))]))).
Proof. exact (sys_close_failure h w). Qed.

(** On the fresh handle, with a host whose [close] fails with [EIO] and
    on which standard error is closed, so that [perror] leaves [EBADF]:
    the error returned is 9, not 5. *)
Lemma failed_close_example :
  run_nif (sys_close 1) close_fails_stderr_closed fresh_world
  = (Returned (make_error (enif_make_int 9)),
     mkWorld fresh_ctx 9 false
             [call_enif_select 8 ERL_NIF_SELECT_STOP 100; call_close 8]).
Proof.
  assert (Hopen : cmd_output_fd (ctx fresh_world) <> PIPE_CLOSED)
    by (unfold PIPE_CLOSED; cbn; lia).
  assert (Hfail : rv (close_fails_stderr_closed
                        (trace fresh_world
                         ++ [call_enif_select (cmd_output_fd (ctx fresh_world))
                               ERL_NIF_SELECT_STOP
                               (read_resource (ctx fresh_world))])
                        (call_close (cmd_output_fd (ctx fresh_world)))) <> 0)
    by (cbn; lia).
  exact (proj2 (failed_close_keeps_the_direction_open
                  close_fails_stderr_closed fresh_world) Hopen Hfail).
Defined.

(** When [waitpid] returns the handle's pid with a status that is neither
    an exit, nor a death by signal, nor a stop, [sys_wait] still marks
    the handle reaped, but records nothing: [exit_type] and [exit_status]
    keep the values they had, and the term returned is built from those
    values. *)
Theorem unclassified_status_reaps_without_recording `{Posix}
    (h : Host) (w : World) :
  pid (ctx w) <> CMD_EXIT ->
  let r := h (trace w) (call_waitpid (pid (ctx w)) WNOHANG) in
  rv r = pid (ctx w) ->
  WIFEXITED (rv_status r) = false ->
  WIFSIGNALED (rv_status r) = false ->
  WIFSTOPPED (rv_status r) = false ->
  run_nif sys_wait h w
  = (Returned (make_exit_term (ctx w)),
     mkWorld (set_pid CMD_EXIT (ctx w)) (rv_errno r) false
             (trace w ++ [call_waitpid (pid (ctx w)) WNOHANG])).
Proof.
  intros Hlive r Hwpid He Hs Ht. subst r. nif_unfold. test_false.
  simpl_world. rewrite Hwpid, Z.eqb_refl, He, Hs, Ht. reflexivity.
Qed.

(** With glibc's macros, status 65535 (a continued child) is in none of
    the three classes; on the fresh handle, whose fields are zero, the
    call answers as for an exit with code 0. *)
Lemma unclassified_status_example :
  run_nif sys_wait
          (scripted (mkScript (answer 0 0) (answer 0 0) (answer 0 0)
                              (answer 0 0) (mkReply 4242 0 65535 [])
                              (answer 0 0)))
          fresh_world
  = (Returned (make_ok (enif_make_tuple2 ATOM_EXIT (enif_make_int 0))),
     mkWorld (set_pid CMD_EXIT fresh_ctx) 0 false [call_waitpid 4242 1]).
Proof.
  assert (Hlive : pid (ctx fresh_world) <> CMD_EXIT)
    by (unfold CMD_EXIT; cbn; lia).
  exact (unclassified_status_reaps_without_recording
           (scripted (mkScript (answer 0 0) (answer 0 0) (answer 0 0)
                               (answer 0 0) (mkReply 4242 0 65535 [])
                               (answer 0 0)))
           fresh_world Hlive eq_refl eq_refl eq_refl eq_refl).
Defined.
